(** * nomos-provider-environment-variables: resolution, caching, conversion
      and lifecycle, embedded from the Go sources.

    Layout, following the packages of the repository:
    - [Go]        the fragment of the Go runtime the packages call
                  (strings as byte sequences, [utf8], [strings], [os] environment);
    - [converter] [internal/converter]: [ConvertValue], [TryJSON], [validateDepth];
    - [config]    [internal/config]: [Config], [ValidateConfig], [ParseConfig];
    - [resolver]  [internal/resolver]: [Transform], [ApplyPrefix], [FilterByPrefix];
    - [fetcher]   [internal/fetcher]: the caching [Fetch] and [Clear];
    - [provider]  [internal/provider]: the lifecycle state and the
                  [Init], [Fetch], [Shutdown] handlers.

    Go strings are byte sequences: they are modelled by [string], whose
    characters are 8-bit [ascii] values.  Logging has no effect on any
    result and is left out.  The handlers are modelled sequentially (one
    call at a time), with the process environment passed explicitly. *)

From Stdlib Require Import ZArith String Ascii List Lia Bool.
From stdpp Require Import base option list gmap strings pretty.

Local Open Scope Z_scope.

(** The two-armed result of a Go function returning [(value, error)]. *)
Inductive result (E A : Type) : Type :=
| Ok (a : A)
| Err (e : E).
Arguments Ok {E A} a.
Arguments Err {E A} e.

Definition isOk {E A} (r : result E A) : bool :=
  match r with Ok _ => true | Err _ => false end.

(* ===================================================================== *)
(** * The Go runtime fragment *)
(* ===================================================================== *)

Module Go.

(** The numeric value of a byte. *)
Definition byte_val (a : ascii) : Z := Z.of_N (N_of_ascii a).

(** [len(s)]: the number of BYTES of a string. *)
Definition len (s : string) : Z := Z.of_nat (String.length s).

Definition bytes (s : string) : list ascii := list_ascii_of_string s.
Definition of_bytes (l : list ascii) : string := string_of_list_ascii l.

(** ** [unicode/utf8] *)

Definition RuneError : Z := 0xFFFD.
Definition RuneSelf : Z := 0x80.

Definition inRange (lo hi b : Z) : bool := (lo <=? b) && (b <=? hi).

(** The table [first] of [utf8]: for a leading byte, the length of the
    sequence and the accepted range of the second byte; [None] for a byte
    that cannot start a multi-byte sequence. *)
Definition leadInfo (b : Z) : option (nat * Z * Z) :=
  if inRange 0xC2 0xDF b then Some (2%nat, 0x80, 0xBF)
  else if b =? 0xE0 then Some (3%nat, 0xA0, 0xBF)
  else if inRange 0xE1 0xEC b then Some (3%nat, 0x80, 0xBF)
  else if b =? 0xED then Some (3%nat, 0x80, 0x9F)
  else if inRange 0xEE 0xEF b then Some (3%nat, 0x80, 0xBF)
  else if b =? 0xF0 then Some (4%nat, 0x90, 0xBF)
  else if inRange 0xF1 0xF3 b then Some (4%nat, 0x80, 0xBF)
  else if b =? 0xF4 then Some (4%nat, 0x80, 0x8F)
  else None.

Definition cont (b : Z) : Z := Z.land b 0x3F.

(** [utf8.DecodeRuneInString]: the first rune and its width in bytes; an
    invalid or truncated sequence decodes to [(RuneError, 1)], the empty
    string to [(RuneError, 0)]. *)
Definition DecodeRune (s : list ascii) : Z * nat :=
  match s with
  | [] => (RuneError, 0%nat)
  | a0 :: t =>
    let s0 := byte_val a0 in
    if s0 <? RuneSelf then (s0, 1%nat)
    else
      match leadInfo s0 with
      | None => (RuneError, 1%nat)
      | Some (sz, lo, hi) =>
        match t with
        | [] => (RuneError, 1%nat)
        | a1 :: t1 =>
          let s1 := byte_val a1 in
          if negb (inRange lo hi s1) then (RuneError, 1%nat)
          else if (sz <=? 2)%nat
          then (Z.lor (Z.shiftl (Z.land s0 0x1F) 6) (cont s1), 2%nat)
          else
            match t1 with
            | [] => (RuneError, 1%nat)
            | a2 :: t2 =>
              let s2 := byte_val a2 in
              if negb (inRange 0x80 0xBF s2) then (RuneError, 1%nat)
              else if (sz <=? 3)%nat
              then (Z.lor (Z.lor (Z.shiftl (Z.land s0 0x0F) 12)
                                 (Z.shiftl (cont s1) 6)) (cont s2), 3%nat)
              else
                match t2 with
                | [] => (RuneError, 1%nat)
                | a3 :: _ =>
                  let s3 := byte_val a3 in
                  if negb (inRange 0x80 0xBF s3) then (RuneError, 1%nat)
                  else (Z.lor (Z.lor (Z.lor (Z.shiftl (Z.land s0 0x07) 18)
                                            (Z.shiftl (cont s1) 12))
                                     (Z.shiftl (cont s2) 6)) (cont s3), 4%nat)
                end
            end
        end
      end
  end.

(** [utf8.RuneStart]: the byte is not a continuation byte. *)
Definition RuneStart (b : Z) : bool := negb (Z.land b 0xC0 =? 0x80).

(** [utf8.DecodeLastRuneInString], on the REVERSED byte sequence [rs]
    (head = last byte of the string).  The source walks back from the last
    byte over at most three more bytes looking for a rune start, decodes
    forward from there and accepts the rune only when it ends exactly at
    the end of the string. *)
Definition DecodeLastRune (rs : list ascii) : Z * nat :=
  match rs with
  | [] => (RuneError, 0%nat)
  | a :: rest =>
    let b := byte_val a in
    if b <? RuneSelf then (b, 1%nat)
    else
      let width : nat :=
        match rest with
        | [] => 1
        | a1 :: r1 =>
          if RuneStart (byte_val a1) then 2
          else match r1 with
               | [] => 2
               | a2 :: r2 =>
                 if RuneStart (byte_val a2) then 3
                 else match r2 with
                      | [] => 3
                      | a3 :: r3 =>
                        if RuneStart (byte_val a3) then 4
                        else match r3 with [] => 4 | _ :: _ => 5 end
                      end
               end
        end%nat in
      let '(r, size) := DecodeRune (rev (take width rs)) in
      if (size =? width)%nat then (r, size) else (RuneError, 1%nat)
  end.

(** [utf8.RuneCountInString]: the number of runes (characters); every
    invalid byte counts as one rune of width 1. *)
Fixpoint runeCount (fuel : nat) (s : list ascii) : Z :=
  match fuel, s with
  | O, _ | _, [] => 0
  | S f, _ :: _ => 1 + runeCount f (drop (snd (DecodeRune s)) s)
  end.

Definition RuneCountInString (s : string) : Z :=
  runeCount (String.length s) (bytes s).

(** [utf8.ValidString]. *)
Fixpoint validFrom (fuel : nat) (s : list ascii) : bool :=
  match fuel, s with
  | O, _ | _, [] => true
  | S f, a :: _ =>
    let '(r, size) := DecodeRune s in
    if (byte_val a <? RuneSelf) || negb ((r =? RuneError) && (size =? 1)%nat)
    then validFrom f (drop size s) else false
  end.

Definition ValidString (s : string) : bool :=
  validFrom (String.length s) (bytes s).

(** ** [unicode.IsSpace]: the White_Space property. *)
Definition IsSpace (r : Z) : bool :=
  inRange 0x09 0x0D r || (r =? 0x20) || (r =? 0x85) || (r =? 0xA0)
  || (r =? 0x1680) || inRange 0x2000 0x200A r || inRange 0x2028 0x2029 r
  || (r =? 0x202F) || (r =? 0x205F) || (r =? 0x3000).

(** ** [strings] *)

(** [strings.TrimLeftFunc(s, unicode.IsSpace)]. *)
Fixpoint trimLeft (fuel : nat) (s : list ascii) : list ascii :=
  match fuel, s with
  | O, _ | _, [] => s
  | S f, _ :: _ =>
    let '(r, size) := DecodeRune s in
    if IsSpace r then trimLeft f (drop size s) else s
  end.

(** [strings.TrimRightFunc(s, unicode.IsSpace)], on the reversed bytes. *)
Fixpoint trimRightRev (fuel : nat) (rs : list ascii) : list ascii :=
  match fuel, rs with
  | O, _ | _, [] => rs
  | S f, _ :: _ =>
    let '(r, size) := DecodeLastRune rs in
    if IsSpace r then trimRightRev f (drop size rs) else rs
  end.

(** [strings.TrimSpace]: leading, then trailing white space removed. *)
Definition TrimSpace (s : string) : string :=
  let l := trimLeft (String.length s) (bytes s) in
  of_bytes (rev (trimRightRev (length l) (rev l))).

(** [strings.HasPrefix]. *)
Fixpoint HasPrefix (s p : string) : bool :=
  match p, s with
  | EmptyString, _ => true
  | String _ _, EmptyString => false
  | String b p', String a s' => if Ascii.eqb a b then HasPrefix s' p' else false
  end.

(** [strings.Join]. *)
Fixpoint Join (elems : list string) (sep : string) : string :=
  match elems with
  | [] => EmptyString
  | [e] => e
  | e :: rest => e +:+ sep +:+ Join rest sep
  end.

(** ** [os]: the process environment, with the lookup of a POSIX system
    (names compared byte for byte). *)
Abbreviation Env := (gmap string string).

Definition LookupEnv (env : Env) (name : string) : option string := env !! name.

(** ** [fmt]: [%v] of a [[]string]. *)
Definition fmtStrings (l : list string) : string :=
  "[" +:+ Join l " " +:+ "]".

End Go.

(** ** Dynamically typed values

    Go's [interface{}] as [encoding/json] produces it, which is also the
    shape of a [structpb.Value]: nil, bool, float64, string,
    [map[string]interface{}] and [[]interface{}].  The entries of a map
    are listed as pairs; no function below depends on their order. *)
#[warnings="-register-all"]
Inductive Value (float64 : Type) : Type :=
| VNil
| VBool (b : bool)
| VNumber (f : float64)
| VString (s : string)
| VMap (m : list (string * Value float64))
| VSlice (l : list (Value float64)).
Arguments VNil {float64}.
Arguments VBool {float64} b.
Arguments VNumber {float64} f.
Arguments VString {float64} s.
Arguments VMap {float64} m.
Arguments VSlice {float64} l.

(** The library functions whose full definition lies outside the
    repository: the [float64] type with [strconv.ParseFloat(s, 64)]
    ([Some f] when it returns a nil error), [json.Unmarshal] into an
    [interface{}] ([Err] carries the decoder's diagnostic), and the
    Unicode case mappings [strings.ToUpper] and [strings.ToLower].
    Every theorem below holds for all implementations of them. *)
Class GoLibrary : Type := {
  float64 : Type;
  ParseFloat : string -> option float64;
  Unmarshal : string -> result string (Value float64);
  ToUpper : string -> string;
  ToLower : string -> string
}.

(* ===================================================================== *)
(** * internal/converter *)
(* ===================================================================== *)

Module converter.

Inductive error : Type :=
| ErrValueTooLarge                 (* "value exceeds maximum size of 1MB" *)
| ErrInvalidJSON (diag : string)   (* "invalid JSON: <diag>", wraps ErrInvalidJSON *)
| ErrJSONTooDeep.                  (* "JSON nesting depth exceeds maximum of 100 levels" *)

Definition MaxValueSize : Z := 1 * 1024 * 1024.
Definition MaxJSONDepth : Z := 100.

Section WithLibrary.
Context `{L : GoLibrary}.

(** [validateDepth]: [None] is the nil error.  The two loops return at
    the first failing child. *)
Fixpoint validateDepth (value : Value float64) (depth : Z) : option error :=
  if depth >? MaxJSONDepth then Some ErrJSONTooDeep
  else
    match value with
    | VMap m =>
      (fix entries (l : list (string * Value float64)) : option error :=
         match l with
         | [] => None
         | (_, val) :: rest =>
           match validateDepth val (depth + 1) with
           | Some err => Some err
           | None => entries rest
           end
         end) m
    | VSlice l =>
      (fix elems (l : list (Value float64)) : option error :=
         match l with
         | [] => None
         | val :: rest =>
           match validateDepth val (depth + 1) with
           | Some err => Some err
           | None => elems rest
           end
         end) l
    | _ => None
    end.

Definition TryJSON (value : string) : result error (Value float64) :=
  match Unmarshal value with
  | Err diag => Err (ErrInvalidJSON diag)
  | Ok res =>
    match validateDepth res 0 with
    | Some err => Err err
    | None => Ok res
    end
  end.

Definition TryNumeric (value : string) : option float64 := ParseFloat value.

Definition TryBoolean (value : string) : option bool :=
  let lower := ToLower (Go.TrimSpace value) in
  if String.eqb lower "true" || String.eqb lower "yes" then Some true
  else if String.eqb lower "false" || String.eqb lower "no" then Some false
  else None.

(** The prefix sniff of [ConvertValue]. *)
Definition looksLikeJSON (value : string) : bool :=
  let trimmed := Go.TrimSpace value in
  Go.HasPrefix trimmed "{" || Go.HasPrefix trimmed "[".

Definition isArray (v : Value float64) : bool :=
  match v with VSlice _ => true | _ => false end.

(** [ConvertValue]: the converted value with its type string, or the error. *)
Definition ConvertValue (value : string) (enableTypeConversion enableJSONParsing : bool)
  : result error (Value float64 * string) :=
  if Go.len value >? MaxValueSize then Err ErrValueTooLarge
  else if String.eqb value "" then Ok (VString value, "string"%string)
  else if enableJSONParsing && looksLikeJSON value then
    match TryJSON value with
    | Err err => Err err
    | Ok res => Ok (res, if isArray res then "array" else "object")%string
    end
  else if negb enableTypeConversion then Ok (VString value, "string"%string)
  else
    match TryNumeric value with
    | Some num => Ok (VNumber num, "number"%string)
    | None =>
      match TryBoolean value with
      | Some b => Ok (VBool b, "boolean"%string)
      | None => Ok (VString value, "string"%string)
      end
    end.

End WithLibrary.
End converter.

(* ===================================================================== *)
(** * internal/config *)
(* ===================================================================== *)

Module config.

Record Config : Type := {
  Separator : string;
  CaseTransform : string;
  Prefix : string;
  PrefixMode : string;
  RequiredVariables : list string;
  EnableTypeConversion : bool;
  EnableJSONParsing : bool
}.

Definition DefaultConfig : Config := {|
  Separator := "_";
  CaseTransform := "upper";
  Prefix := "";
  PrefixMode := "prepend";
  RequiredVariables := [];
  EnableTypeConversion := true;
  EnableJSONParsing := true
|}.

(** The errors of [ValidateConfig], one per format string:
    "invalid case_transform: %s (must be upper, lower, or preserve)",
    "invalid prefix_mode: %s (must be prepend or filter_only)",
    "separator must be a single character, got: %q",
    "required_variables[%d] is empty". *)
Inductive error : Type :=
| InvalidCaseTransform (got : string)
| InvalidPrefixMode (got : string)
| InvalidSeparator (got : string)
| EmptyRequiredVariable (i : nat).

Definition validCaseTransforms : gmap string bool :=
  <["upper"%string := true]> (<["lower"%string := true]> (<["preserve"%string := true]> ∅)).

Definition validPrefixModes : gmap string bool :=
  <["prepend"%string := true]> (<["filter_only"%string := true]> ∅).

(** Indexing a Go map yields the zero value for a missing key. *)
Definition index (m : gmap string bool) (k : string) : bool := default false (m !! k).

(** The loop over [RequiredVariables], from index [i]. *)
Fixpoint checkRequired (i : nat) (vars : list string) : option error :=
  match vars with
  | [] => None
  | varName :: rest =>
    if String.eqb (Go.TrimSpace varName) "" then Some (EmptyRequiredVariable i)
    else checkRequired (S i) rest
  end.

(** [ValidateConfig]: [None] is the nil error. *)
Definition ValidateConfig (c : Config) : option error :=
  if negb (index validCaseTransforms (CaseTransform c))
  then Some (InvalidCaseTransform (CaseTransform c))
  else if negb (index validPrefixModes (PrefixMode c))
  then Some (InvalidPrefixMode (PrefixMode c))
  else if negb (Go.len (Separator c) =? 1)
  then Some (InvalidSeparator (Separator c))
  else checkRequired 0 (RequiredVariables c).

Section WithLibrary.
Context `{L : GoLibrary}.

(** A [*structpb.Struct]: [None] when the pointer or its [Fields] is nil. *)
Definition Struct : Type := option (gmap string (Value float64)).

Definition getString (m : Struct) (key defaultVal : string) : string :=
  match m with
  | None => defaultVal
  | Some fields =>
    match fields !! key with
    | Some (VString s) => s
    | _ => defaultVal
    end
  end.

Definition getBool (m : Struct) (key : string) (defaultVal : bool) : bool :=
  match m with
  | None => defaultVal
  | Some fields =>
    match fields !! key with
    | Some (VBool b) => b
    | _ => defaultVal
    end
  end.

(** [getStringList]: [None] is the nil slice; entries that are not
    strings are skipped. *)
Definition getStringList (m : Struct) (key : string) : option (list string) :=
  match m with
  | None => None
  | Some fields =>
    match fields !! key with
    | Some (VSlice values) =>
      Some (omap (fun item => match item with VString s => Some s | _ => None end) values)
    | _ => None
    end
  end.

(** [ParseConfig]; its error result is always nil. *)
Definition ParseConfig (pbConfig : Struct) : result error Config :=
  let cfg := DefaultConfig in
  match pbConfig with
  | None => Ok cfg
  | Some _ =>
    Ok {|
      Separator := getString pbConfig "separator" (Separator cfg);
      CaseTransform := getString pbConfig "case_transform" (CaseTransform cfg);
      Prefix := getString pbConfig "prefix" (Prefix cfg);
      PrefixMode := getString pbConfig "prefix_mode" (PrefixMode cfg);
      RequiredVariables :=
        match getStringList pbConfig "required_variables" with
        | Some requiredVars => requiredVars
        | None => RequiredVariables cfg
        end;
      EnableTypeConversion :=
        getBool pbConfig "enable_type_conversion" (EnableTypeConversion cfg);
      EnableJSONParsing :=
        getBool pbConfig "enable_json_parsing" (EnableJSONParsing cfg)
    |}
  end.

End WithLibrary.
End config.

(* ===================================================================== *)
(** * internal/resolver *)
(* ===================================================================== *)

Module resolver.

Inductive error : Type :=
| ErrEmptyPath       (* "path cannot be empty" *)
| ErrEmptySegment.   (* "path segments cannot be empty" *)

Definition PrependPrefix (varName prefix : string) : string := prefix +:+ varName.

Definition ApplyPrefix (varName prefix mode : string) : string :=
  if String.eqb prefix "" then varName
  else if String.eqb mode "prepend" then PrependPrefix varName prefix
  else if String.eqb mode "filter_only" then varName
  else varName.

Definition FilterByPrefix (varName prefix : string) : bool :=
  if String.eqb prefix "" then true
  else Go.HasPrefix varName prefix.

Definition PreserveCase (s : string) : string := s.

Record Resolver : Type := {
  separator : string;
  caseTransform : string;
  prefix : string;
  prefixMode : string
}.

Definition NewResolver (separator caseTransform prefix prefixMode : string) : Resolver :=
  {| separator := separator; caseTransform := caseTransform;
     prefix := prefix; prefixMode := prefixMode |}.

Section WithLibrary.
Context `{L : GoLibrary}.

Definition ToUpperCase (s : string) : string := ToUpper s.
Definition ToLowerCase (s : string) : string := ToLower s.

Definition TransformSegment (segment caseTransform : string) : string :=
  if String.eqb caseTransform "upper" then ToUpperCase segment
  else if String.eqb caseTransform "lower" then ToLowerCase segment
  else if String.eqb caseTransform "preserve" then PreserveCase segment
  else segment.

Definition TransformSegments (segments : list string) (caseTransform : string)
  : list string :=
  map (fun segment => TransformSegment segment caseTransform) segments.

(** The validation loop of [Transform]: is some segment empty or only
    white space? *)
Definition hasEmptySegment (path : list string) : bool :=
  existsb (fun segment => String.eqb (Go.TrimSpace segment) "") path.

Definition Transform (r : Resolver) (path : list string) : result error string :=
  if (length path =? 0)%nat then Err ErrEmptyPath
  else if hasEmptySegment path then Err ErrEmptySegment
  else
    let transformed := TransformSegments path (caseTransform r) in
    let transformedName := Go.Join transformed (separator r) in
    Ok (ApplyPrefix transformedName (prefix r) (prefixMode r)).

End WithLibrary.
End resolver.

(* ===================================================================== *)
(** * internal/fetcher *)
(* ===================================================================== *)

Module fetcher.

Inductive error : Type :=
| ErrNotFound        (* "environment variable not found" *)
| ErrValueTooLarge.  (* "environment variable value too large" *)

Definition MaxValueSize : Z := 1 * 1024 * 1024.

(** The fetcher owns the cache, a map from variable names to raw values. *)
Record Fetcher : Type := { cache : gmap string string }.

Definition New : Fetcher := {| cache := ∅ |}.

(** [Fetch]: the result and the fetcher afterwards. *)
Definition Fetch (f : Fetcher) (env : Go.Env) (varName : string)
  : result error string * Fetcher :=
  match cache f !! varName with
  | Some cached => (Ok cached, f)
  | None =>
    match Go.LookupEnv env varName with
    | None => (Err ErrNotFound, f)
    | Some value =>
      if Go.len value >? MaxValueSize then (Err ErrValueTooLarge, f)
      else (Ok value, {| cache := <[varName := value]> (cache f) |})
    end
  end.

(** [Clear] deletes every key. *)
Definition Clear (f : Fetcher) : Fetcher := {| cache := ∅ |}.

End fetcher.

(* ===================================================================== *)
(** * internal/provider *)
(* ===================================================================== *)

Module provider.

Import config.

(** The lifecycle state of the provider. *)
Inductive State : Type :=
| StateUninitialized
| StateInitializing
| StateReady
| StateShuttingDown
| StateStopped.

Global Instance State_eq_dec : EqDecision State.
Proof. solve_decision. Defined.

(** The gRPC status codes the handlers return. *)
Inductive Code : Type :=
| FailedPrecondition
| InvalidArgument
| NotFound
| Internal.

(** The message of a status: the text itself where the handler formats
    only strings and integers, the wrapped error otherwise
    ("path transformation failed: %v", "type conversion failed: %v",
    "config validation failed: %v", "config parse failed: %v",
    "value conversion failed: %v", "struct creation failed: %v"). *)
Inductive Message : Type :=
| Text (s : string)
| TransformFailed (e : resolver.error)
| ConversionFailed (e : converter.error)
| ConfigParseFailed (e : config.error)
| ConfigValidationFailed (e : config.error)
| ValueConversionFailed
| StructCreationFailed.

Inductive Status : Type := StatusError (c : Code) (m : Message).

(** What a handler call produces: a response, a status error, or the
    panic of a nil pointer dereference. *)
Inductive outcome (A : Type) : Type :=
| Response (a : A)
| Failure (st : Status)
| Panic.
Arguments Response {A} a.
Arguments Failure {A} st.
Arguments Panic {A}.

Section WithLibrary.
Context `{L : GoLibrary}.

Record Provider : Type := {
  alias : string;
  config : option Config;                 (* nil until Init stores one *)
  fetcher : option fetcher.Fetcher;
  resolver : option resolver.Resolver;
  state : State
}.

Definition New : Provider := {|
  alias := ""; config := None; fetcher := None; resolver := None;
  state := StateUninitialized
|}.

Definition GetState (p : Provider) : State := state p.

Definition setState (p : Provider) (s : State) : Provider :=
  {| alias := alias p; config := config p; fetcher := fetcher p;
     resolver := resolver p; state := s |}.

Record InitRequest : Type := { Alias : string; Config_ : config.Struct }.
Record FetchRequest : Type := { Path : list string }.
Inductive InitResponse : Type := MkInitResponse.
Inductive ShutdownResponse : Type := MkShutdownResponse.
(** The response struct, whose single field "value" holds the value. *)
Record FetchResponse : Type := { Value_ : gmap string (Value float64) }.

(** The required variables that [os.LookupEnv] does not find, in order. *)
Definition missingVariables (env : Go.Env) (required : list string) : list string :=
  filter (fun varName => Go.LookupEnv env varName = None) required.

(** [Init]: the outcome and the provider afterwards. *)
Definition Init (p : Provider) (env : Go.Env) (req : InitRequest)
  : outcome InitResponse * Provider :=
  let p := setState p StateInitializing in
  match ParseConfig (Config_ req) with
  | Err err =>
    (Failure (StatusError InvalidArgument (ConfigParseFailed err)),
     setState p StateUninitialized)
  | Ok cfg =>
    match ValidateConfig cfg with
    | Some err =>
      (Failure (StatusError InvalidArgument (ConfigValidationFailed err)),
       setState p StateUninitialized)
    | None =>
      let missing :=
        if (0 <? length (RequiredVariables cfg))%nat
        then missingVariables env (RequiredVariables cfg) else [] in
      if (0 <? length missing)%nat then
        let errMsg := ("required environment variables missing: "
                       +:+ Go.fmtStrings missing)%string in
        (Failure (StatusError InvalidArgument (Text errMsg)),
         setState p StateUninitialized)
      else
        let p := {|
          alias := Alias req;
          config := Some cfg;
          fetcher := match fetcher p with
                     | None => Some fetcher.New
                     | Some f => Some f
                     end;
          resolver := Some (resolver.NewResolver (Separator cfg) (CaseTransform cfg)
                                                 (Prefix cfg) (PrefixMode cfg));
          state := state p |} in
        (Response MkInitResponse, setState p StateReady)
    end
  end.

(** [Shutdown]. *)
Definition Shutdown (p : Provider) : outcome ShutdownResponse * Provider :=
  let p := setState p StateShuttingDown in
  let p := {| alias := alias p; config := config p;
              fetcher := fetcher.Clear <$> fetcher p;
              resolver := resolver p; state := state p |} in
  (Response MkShutdownResponse, setState p StateStopped).

(** [convertValue]: [ConvertValue] under the flags of the configuration. *)
Definition convertValue (cfg : Config) (value : string)
  : result converter.error (Value float64) :=
  match converter.ConvertValue value (EnableTypeConversion cfg) (EnableJSONParsing cfg) with
  | Ok (converted, _) => Ok converted
  | Err err => Err err
  end.

(** [toProtoValue] with [convertMapToProto] and [convertArrayToProto]:
    every value of the types above is supported, maps and slices are
    rebuilt entry by entry. *)
Fixpoint toProtoValue (value : Value float64) : result string (Value float64) :=
  match value with
  | VString v => Ok (VString v)
  | VNumber v => Ok (VNumber v)
  | VBool v => Ok (VBool v)
  | VMap m =>
    match
      (fix convertMapToProto (m : list (string * Value float64))
         : result string (list (string * Value float64)) :=
         match m with
         | [] => Ok []
         | (k, v) :: rest =>
           match toProtoValue v with
           | Err e => Err e
           | Ok converted =>
             match convertMapToProto rest with
             | Err e => Err e
             | Ok res => Ok ((k, converted) :: res)
             end
           end
         end) m
    with
    | Ok res => Ok (VMap res)
    | Err e => Err e
    end
  | VSlice arr =>
    match
      (fix convertArrayToProto (arr : list (Value float64))
         : result string (list (Value float64)) :=
         match arr with
         | [] => Ok []
         | v :: rest =>
           match toProtoValue v with
           | Err e => Err e
           | Ok converted =>
             match convertArrayToProto rest with
             | Err e => Err e
             | Ok res => Ok (converted :: res)
             end
           end
         end) arr
    with
    | Ok res => Ok (VSlice res)
    | Err e => Err e
    end
  | VNil => Ok VNil
  end.

(** [structpb.NewValue] accepts a value when every string and every map
    key in it is valid UTF-8. *)
Fixpoint validProto (v : Value float64) : bool :=
  match v with
  | VString s => Go.ValidString s
  | VMap m =>
    (fix entries (m : list (string * Value float64)) : bool :=
       match m with
       | [] => true
       | (k, v) :: rest => Go.ValidString k && validProto v && entries rest
       end) m
  | VSlice l =>
    (fix elems (l : list (Value float64)) : bool :=
       match l with
       | [] => true
       | v :: rest => validProto v && elems rest
       end) l
  | _ => true
  end.

(** [structpb.NewStruct(map[string]interface{}{"value": protoValue})]. *)
Definition NewStruct (protoValue : Value float64) : option (gmap string (Value float64)) :=
  if validProto protoValue then Some {[ "value"%string := protoValue ]} else None.

(** The index of the first path segment that is empty or only white space. *)
Fixpoint firstEmptySegment (i : nat) (path : list string) : option nat :=
  match path with
  | [] => None
  | segment :: rest =>
    if String.eqb (Go.TrimSpace segment) "" then Some i
    else firstEmptySegment (S i) rest
  end.

(** The second half of [Fetch], once the variable name is known. *)
Definition fetchVariable (p : Provider) (env : Go.Env) (varName : string)
  : outcome FetchResponse * Provider :=
  match config p with
  | None => (Panic, p)
  | Some cfg =>
    if String.eqb (PrefixMode cfg) "filter_only" && negb (String.eqb (Prefix cfg) "")
       && negb (resolver.FilterByPrefix varName (Prefix cfg))
    then (Failure (StatusError NotFound
                     (Text ("environment variable not found: " +:+ varName))), p)
    else
      match fetcher p with
      | None => (Panic, p)
      | Some f =>
        let '(res, f') := fetcher.Fetch f env varName in
        let p := {| alias := alias p; config := config p; fetcher := Some f';
                    resolver := resolver p; state := state p |} in
        match res with
        | Err fetcher.ErrNotFound =>
          (Failure (StatusError NotFound
                      (Text ("environment variable not found: " +:+ varName))), p)
        | Err fetcher.ErrValueTooLarge =>
          (Failure (StatusError InvalidArgument
                      (Text ("environment variable value exceeds maximum size of "
                             +:+ pretty fetcher.MaxValueSize +:+ " bytes"))), p)
        | Ok value =>
          let converted :=
            if EnableTypeConversion cfg || EnableJSONParsing cfg
            then convertValue cfg value else Ok (VString value) in
          match converted with
          | Err err => (Failure (StatusError InvalidArgument (ConversionFailed err)), p)
          | Ok convertedValue =>
            match toProtoValue convertedValue with
            | Err _ => (Failure (StatusError Internal ValueConversionFailed), p)
            | Ok protoValue =>
              match NewStruct protoValue with
              | None => (Failure (StatusError Internal StructCreationFailed), p)
              | Some valueStruct => (Response {| Value_ := valueStruct |}, p)
              end
            end
          end
        end
      end
  end.

(** [Fetch]: the outcome and the provider afterwards. *)
Definition Fetch (p : Provider) (env : Go.Env) (req : FetchRequest)
  : outcome FetchResponse * Provider :=
  if negb (bool_decide (GetState p = StateReady))
  then (Failure (StatusError FailedPrecondition (Text "provider not initialized")), p)
  else if (length (Path req) =? 0)%nat
  then (Failure (StatusError InvalidArgument (Text "path cannot be empty")), p)
  else
    match firstEmptySegment 0 (Path req) with
    | Some i =>
      (Failure (StatusError InvalidArgument
                  (Text ("path[" +:+ pretty i +:+ "] cannot be empty string"))), p)
    | None =>
      match Path req with
      | [varName] =>
        (* single-segment path: direct environment variable access *)
        fetchVariable p env varName
      | path =>
        (* multi-segment path: transform using the resolver *)
        match resolver p with
        | None => (Panic, p)
        | Some r =>
          match resolver.Transform r path with
          | Err err => (Failure (StatusError InvalidArgument (TransformFailed err)), p)
          | Ok varName => fetchVariable p env varName
          end
        end
      end
    end.

(** [Health]: the status and its message, read from the state alone. *)
Inductive HealthStatus : Type :=
| STATUS_OK
| STATUS_STARTING
| STATUS_DEGRADED.

Record HealthResponse : Type := { Status_ : HealthStatus; Message_ : string }.

Definition Health (p : Provider) : HealthResponse :=
  match GetState p with
  | StateReady => {| Status_ := STATUS_OK; Message_ := "provider is ready" |}
  | StateInitializing =>
    {| Status_ := STATUS_STARTING; Message_ := "provider is initializing" |}
  | _ => {| Status_ := STATUS_DEGRADED; Message_ := "provider is not ready" |}
  end.

(** [Info]; [Version] is the package variable set at build time. *)
Record InfoResponse : Type := { Alias_ : string; Version_ : string; Type_ : string }.

Definition Info (Version : string) (p : Provider) : InfoResponse :=
  {| Alias_ := alias p; Version_ := Version; Type_ := "environment-variables" |}.

End WithLibrary.
End provider.

(* ===================================================================== *)
(** * internal/logger *)
(* ===================================================================== *)

Module logger.

(** [Level] is a Go [int]. *)
Definition Level : Type := Z.
Definition ERROR : Level := 0.
Definition WARN : Level := 1.
Definition INFO : Level := 2.
Definition DEBUG : Level := 3.

Definition String (l : Level) : string :=
  if l =? ERROR then "ERROR"
  else if l =? WARN then "WARN"
  else if l =? INFO then "INFO"
  else if l =? DEBUG then "DEBUG"
  else "UNKNOWN".

(** The logger with what it has written to its output so far. *)
Record Logger : Type := { level : Level; output : string }.

Definition New (level : Level) : Logger := {| level := level; output := "" |}.

(** [log], given the formatted time stamp and the formatted message. *)
Definition log (l : Logger) (timestamp : string) (lvl : Level) (message : string)
  : Logger :=
  if lvl >? level l then l
  else {| level := level l;
          output := output l +:+ "[" +:+ timestamp +:+ "] " +:+ String lvl
                    +:+ ": " +:+ message +:+ String.String "010"%char EmptyString |}.

Definition Error (l : Logger) (timestamp message : string) : Logger :=
  log l timestamp ERROR message.
Definition Warn (l : Logger) (timestamp message : string) : Logger :=
  log l timestamp WARN message.
Definition Info (l : Logger) (timestamp message : string) : Logger :=
  log l timestamp INFO message.
Definition Debug (l : Logger) (timestamp message : string) : Logger :=
  log l timestamp DEBUG message.

End logger.

(* ===================================================================== *)
(** * Reference instances of the library, for concrete runs *)
(* ===================================================================== *)

Module Sample.

Definition isDigit (a : ascii) : bool := Go.inRange 48 57 (Go.byte_val a).

(** The double quote, byte 34, and a text between double quotes. *)
Definition dquote : ascii := "034"%char.
Definition quoted (s : string) : string := String dquote (s +:+ String dquote EmptyString).

(** ASCII case mapping, the restriction of [strings.ToLower] and
    [strings.ToUpper] to strings of ASCII bytes. *)
Definition lowerByte (a : ascii) : ascii :=
  if Go.inRange 65 90 (Go.byte_val a) then ascii_of_N (N_of_ascii a + 32) else a.
Definition upperByte (a : ascii) : ascii :=
  if Go.inRange 97 122 (Go.byte_val a) then ascii_of_N (N_of_ascii a - 32) else a.

Fixpoint mapBytes (f : ascii -> ascii) (s : string) : string :=
  match s with
  | EmptyString => EmptyString
  | String a s' => String (f a) (mapBytes f s')
  end.

(** Unsigned decimal integers, the restriction of [strconv.ParseFloat] to
    strings of decimal digits; the number is kept as an integer. *)
Fixpoint digitsValue (acc : Z) (l : list ascii) : option Z :=
  match l with
  | [] => Some acc
  | a :: rest =>
    if isDigit a then digitsValue (10 * acc + (Go.byte_val a - 48)) rest else None
  end.

Definition parseDecimal (s : string) : option Z :=
  match Go.bytes s with
  | [] => None
  | l => digitsValue 0 l
  end.

(** A decoder for the JSON texts built from objects, arrays, strings
    without escapes, unsigned integers, [true], [false] and [null]. *)
Definition isWs (a : ascii) : bool :=
  let b := Go.byte_val a in (b =? 32) || (b =? 9) || (b =? 10) || (b =? 13).

Fixpoint skipWs (l : list ascii) : list ascii :=
  match l with
  | a :: rest => if isWs a then skipWs rest else l
  | [] => []
  end.

Fixpoint readString (l : list ascii) : option (string * list ascii) :=
  match l with
  | [] => None
  | a :: rest =>
    if Ascii.eqb a dquote then Some (EmptyString, rest)
    else if Ascii.eqb a "\" then None
    else match readString rest with
         | Some (s, r) => Some (String a s, r)
         | None => None
         end
  end.

Fixpoint readDigits (acc : Z) (l : list ascii) : Z * list ascii :=
  match l with
  | a :: rest =>
    if isDigit a then readDigits (10 * acc + (Go.byte_val a - 48)) rest else (acc, l)
  | [] => (acc, [])
  end.

Fixpoint decode (fuel : nat) (l : list ascii) : option (Value Z * list ascii) :=
  match fuel with
  | O => None
  | S f =>
    match skipWs l with
    | [] => None
    | c :: t =>
      if Ascii.eqb c "{" then
        match skipWs t with
        | "}"%char :: r => Some (VMap [], r)
        | _ =>
          match
            (fix members (n : nat) (l : list ascii)
               : option (list (string * Value Z) * list ascii) :=
               match n with
               | O => None
               | S n' =>
                 match skipWs l with
                 | q :: l1 =>
                   if negb (Ascii.eqb q dquote) then None else
                   match readString l1 with
                   | Some (k, l2) =>
                     match skipWs l2 with
                     | ":"%char :: l3 =>
                       match decode f l3 with
                       | Some (v, l4) =>
                         match skipWs l4 with
                         | ","%char :: l5 =>
                           match members n' l5 with
                           | Some (ms, r) => Some ((k, v) :: ms, r)
                           | None => None
                           end
                         | "}"%char :: r => Some ([(k, v)], r)
                         | _ => None
                         end
                       | None => None
                       end
                     | _ => None
                     end
                   | None => None
                   end
                 | _ => None
                 end
               end) f t
          with
          | Some (ms, r) => Some (VMap ms, r)
          | None => None
          end
        end
      else if Ascii.eqb c "[" then
        match skipWs t with
        | "]"%char :: r => Some (VSlice [], r)
        | _ =>
          match
            (fix elements (n : nat) (l : list ascii)
               : option (list (Value Z) * list ascii) :=
               match n with
               | O => None
               | S n' =>
                 match decode f l with
                 | Some (v, l1) =>
                   match skipWs l1 with
                   | ","%char :: l2 =>
                     match elements n' l2 with
                     | Some (vs, r) => Some (v :: vs, r)
                     | None => None
                     end
                   | "]"%char :: r => Some ([v], r)
                   | _ => None
                   end
                 | None => None
                 end
               end) f t
          with
          | Some (vs, r) => Some (VSlice vs, r)
          | None => None
          end
        end
      else if Ascii.eqb c dquote then
        match readString t with
        | Some (s, r) => Some (VString s, r)
        | None => None
        end
      else if isDigit c then
        let '(n, r) := readDigits 0 (c :: t) in Some (VNumber n, r)
      else
        match c :: t with
        | "t" :: "r" :: "u" :: "e" :: r => Some (VBool true, r)
        | "f" :: "a" :: "l" :: "s" :: "e" :: r => Some (VBool false, r)
        | "n" :: "u" :: "l" :: "l" :: r => Some (VNil, r)
        | _ => None
        end%char
    end
  end.

Definition decodeJSON (s : string) : result string (Value Z) :=
  match decode (S (String.length s)) (Go.bytes s) with
  | Some (v, rest) =>
    match skipWs rest with
    | [] => Ok v
    | _ => Err "syntax error"%string
    end
  | None => Err "syntax error"%string
  end.

#[export] Instance lib : GoLibrary := {|
  float64 := Z;
  ParseFloat := parseDecimal;
  Unmarshal := decodeJSON;
  ToUpper := mapBytes upperByte;
  ToLower := mapBytes lowerByte
|}.

(** A library whose decoders reject every input; it agrees with Go on
    every text that is neither a number nor JSON. *)
Definition rejecting : GoLibrary := {|
  float64 := Z;
  ParseFloat := fun _ => None;
  Unmarshal := fun _ => Err "syntax error"%string;
  ToUpper := mapBytes upperByte;
  ToLower := mapBytes lowerByte
|}.

End Sample.

(* ===================================================================== *)
(** * Inputs, measures and scenarios of the statements *)
(* ===================================================================== *)

(** An input of 1048579 bytes: an opening brace, 1048577 letters and a
    closing brace. *)
Definition filler : list ascii := replicate (N.to_nat 1048576) "a"%char.
Definition oversized : string :=
  Go.of_bytes ("{"%char :: "a"%char :: filler ++ ["}"%char]).

(** Two measures of a decoded value.

    [levels] is its nesting depth as a JSON text shows it: the number of
    maps and slices inside one another, so a scalar has 0 levels, an empty
    array 1 and [depth] objects around a string [depth].

    [valueDepth] is what [validateDepth] turns out to bound: the largest
    number of maps and slices that some value of [v] (a scalar, a map or a
    slice, [v] itself included) lies inside.  An empty map or slice holds
    no value, so it adds nothing: the two measures differ by one exactly
    when a deepest chain of containers ends in an empty one. *)
Fixpoint levels {F : Type} (v : Value F) : Z :=
  match v with
  | VMap m =>
    1 + (fix entries (l : list (string * Value F)) : Z :=
           match l with
           | [] => 0
           | (_, val) :: rest => Z.max (levels val) (entries rest)
           end) m
  | VSlice l =>
    1 + (fix elems (l : list (Value F)) : Z :=
           match l with
           | [] => 0
           | val :: rest => Z.max (levels val) (elems rest)
           end) l
  | _ => 0
  end.

Fixpoint valueDepth {F : Type} (v : Value F) : Z :=
  match v with
  | VMap m =>
    (fix entries (l : list (string * Value F)) : Z :=
       match l with
       | [] => 0
       | (_, val) :: rest => Z.max (1 + valueDepth val) (entries rest)
       end) m
  | VSlice l =>
    (fix elems (l : list (Value F)) : Z :=
       match l with
       | [] => 0
       | val :: rest => Z.max (1 + valueDepth val) (elems rest)
       end) l
  | _ => 0
  end.

(** [n + 1] slices inside one another, the innermost one empty. *)
Fixpoint emptyNest {F : Type} (n : nat) : Value F :=
  match n with
  | O => VSlice []
  | S k => VSlice [emptyNest k]
  end.

(** The text of [n] arrays inside one another, the innermost one empty. *)
Fixpoint brackets (n : nat) : string :=
  match n with
  | O => EmptyString
  | S k => "[" +:+ brackets k +:+ "]"
  end.


(** The text and the value of the repository's depth tests
    ([createDeeplyNestedJSON]): [depth] objects around a string. *)
Fixpoint createDeeplyNestedJSON (depth : nat) : string :=
  match depth with
  | O => Sample.quoted "value"
  | S d => "{" +:+ Sample.quoted "nested" +:+ ":" +:+ createDeeplyNestedJSON d +:+ "}"
  end.

Fixpoint deeplyNested {F : Type} (depth : nat) : Value F :=
  match depth with
  | O => VString "value"
  | S d => VMap [("nested"%string, deeplyNested d)]
  end.

(** A byte that is ASCII and not white space. *)
Definition plain (a : ascii) : bool :=
  (Go.byte_val a <? Go.RuneSelf) && negb (Go.IsSpace (Go.byte_val a)).

(** The letter e with an acute accent, U+00E9: one character, the two
    bytes C3 A9 in UTF-8. *)
Definition eAcute : string := String "195"%char (String "169"%char EmptyString).

(** The fetcher after a series of further [Fetch] calls, each for some
    name under some state of the environment. *)
Definition afterFetches (f : fetcher.Fetcher) (calls : list (Go.Env * string))
  : fetcher.Fetcher :=
  fold_left (fun f call => snd (fetcher.Fetch f (fst call) (snd call))) calls f.

(** The requests of the scenarios. *)
Definition initWith `{L : GoLibrary} (fields : list (string * Value float64))
  : provider.InitRequest :=
  {| provider.Alias := "env"; provider.Config_ := Some (list_to_map fields) |}.

Definition fetchPath (path : list string) : provider.FetchRequest :=
  {| provider.Path := path |}.

(** The status a handler failed with. *)
Definition failure {A : Type} (o : provider.outcome A) : option provider.Status :=
  match o with
  | provider.Failure st => Some st
  | _ => None
  end.

(** The value a [Fetch] answered with: the field "value" of the response. *)
Definition fetched `{L : GoLibrary} (o : provider.outcome provider.FetchResponse)
  : option (Value float64) :=
  match o with
  | provider.Response r => provider.Value_ r !! "value"%string
  | _ => None
  end.

(** The pointers a ready provider dereferences are set. *)
Definition wellFormed (p : provider.Provider) : Prop :=
  provider.state p = provider.StateReady ->
  is_Some (provider.config p) /\ is_Some (provider.fetcher p)
  /\ is_Some (provider.resolver p).

(** The provider of the scenarios: a new provider initialized, under the
    reference library, with the default configuration in an empty
    environment. *)
Definition readyProvider : provider.Provider :=
  snd (provider.Init (L:=Sample.lib) provider.New ∅ (initWith [])).

(** The environment, the configuration and the provider of the scenario
    of C2. *)
Definition portEnv : Go.Env := {[ "MYAPP_PORT"%string := "8080"%string ]}.

Definition portProvider : provider.Provider :=
  snd (provider.Init (L:=Sample.lib) provider.New portEnv
         (initWith [("prefix"%string, VString "MYAPP_");
                    ("prefix_mode"%string, VString "prepend");
                    ("case_transform"%string, VString "upper")])).

(** ** Runs of the provider *)

(** A call of one of the three handlers that change the provider. *)
Inductive Call `{L : GoLibrary} : Type :=
| CallInit (env : Go.Env) (req : provider.InitRequest)
| CallFetch (env : Go.Env) (req : provider.FetchRequest)
| CallShutdown.

Definition step `{L : GoLibrary} (p : provider.Provider) (c : Call) : provider.Provider :=
  match c with
  | CallInit env req => snd (provider.Init p env req)
  | CallFetch env req => snd (provider.Fetch p env req)
  | CallShutdown => snd (provider.Shutdown p)
  end.

(** The provider after a series of calls. *)
Definition run `{L : GoLibrary} (p : provider.Provider) (calls : list Call)
  : provider.Provider :=
  fold_left step calls p.

(** Every cached value is within the size limit. *)
Definition cacheBounded (f : fetcher.Fetcher) : Prop :=
  forall name v, fetcher.cache f !! name = Some v -> Go.len v <= fetcher.MaxValueSize.

(** What the handlers keep true of the provider: the pointers are set
    together, the stored configuration has passed validation, the resolver
    was built from it, the cache holds no oversized value, and no call
    ends in one of the two transient states. *)
Record consistent (p : provider.Provider) : Prop := {
  consistent_state :
    provider.state p = provider.StateUninitialized \/
    provider.state p = provider.StateReady \/
    provider.state p = provider.StateStopped;
  consistent_ready : wellFormed p;
  consistent_config :
    forall cfg, provider.config p = Some cfg ->
      config.ValidateConfig cfg = None /\
      provider.resolver p =
        Some (resolver.NewResolver (config.Separator cfg) (config.CaseTransform cfg)
                                   (config.Prefix cfg) (config.PrefixMode cfg));
  consistent_cache :
    forall f, provider.fetcher p = Some f -> cacheBounded f
}.

(** The variable name [Fetch] settles on for a valid path: the segment
    itself for a path of one segment, the resolver's answer otherwise
    ([None] when there is no resolver). *)
Definition resolved `{L : GoLibrary} (p : provider.Provider) (path : list string)
  : option (result resolver.error string) :=
  match path with
  | [varName] => Some (Ok varName)
  | _ => (fun r => resolver.Transform r path) <$> provider.resolver p
  end.

(** A [Fetch] outcome past the lookup of the variable: an answer, or a
    failure of the conversion of the raw value. *)
Definition served `{L : GoLibrary} (o : provider.outcome provider.FetchResponse) : Prop :=
  match o with
  | provider.Response _ => True
  | provider.Failure (provider.StatusError _ (provider.ConversionFailed _)) => True
  | provider.Failure (provider.StatusError _ provider.ValueConversionFailed) => True
  | provider.Failure (provider.StatusError _ provider.StructCreationFailed) => True
  | _ => False
  end.

(** The code of a failed call. *)
Definition failureCode {A : Type} (o : provider.outcome A) : option provider.Code :=
  match o with
  | provider.Failure (provider.StatusError c _) => Some c
  | _ => None
  end.

(** The byte [c] occurs in [s]. *)
Fixpoint hasByte (c : ascii) (s : string) : bool :=
  match s with
  | EmptyString => false
  | String a s' => Ascii.eqb a c || hasByte c s'
  end.

(** A series of log calls: time stamp, level, message. *)
Definition logAll (l : logger.Logger) (calls : list (string * logger.Level * string))
  : logger.Logger :=
  fold_left (fun l c => logger.log l (fst (fst c)) (snd (fst c)) (snd c)) calls l.

(* ===================================================================== *)
(** * Properties of the runtime fragment *)
(* ===================================================================== *)

Section GoFacts.

Lemma bytes_of_bytes (l : list ascii) : Go.bytes (Go.of_bytes l) = l.
Proof. apply list_ascii_of_string_of_list_ascii. Qed.

Lemma of_bytes_bytes (s : string) : Go.of_bytes (Go.bytes s) = s.
Proof. apply string_of_list_ascii_of_string. Qed.

Lemma length_of_bytes (l : list ascii) : String.length (Go.of_bytes l) = length l.
Proof. induction l as [|a l IH]; simpl; [reflexivity | now rewrite IH]. Qed.

Lemma len_of_bytes (l : list ascii) : Go.len (Go.of_bytes l) = Z.of_nat (length l).
Proof. unfold Go.len. now rewrite length_of_bytes. Qed.

Lemma len_nonneg (s : string) : 0 <= Go.len s.
Proof. unfold Go.len. lia. Qed.

Lemma len_empty (s : string) : Go.len s = 0 <-> s = EmptyString.
Proof.
  unfold Go.len. destruct s; simpl String.length; split; intros H;
    first [reflexivity | discriminate | lia].
Qed.

Lemma DecodeRune_plain (a : ascii) (l : list ascii) :
  (Go.byte_val a <? Go.RuneSelf) = true ->
  Go.DecodeRune (a :: l) = (Go.byte_val a, 1%nat).
Proof. intros H. unfold Go.DecodeRune. now rewrite H. Qed.

Lemma DecodeLastRune_plain (a : ascii) (l : list ascii) :
  (Go.byte_val a <? Go.RuneSelf) = true ->
  Go.DecodeLastRune (a :: l) = (Go.byte_val a, 1%nat).
Proof. intros H. unfold Go.DecodeLastRune. now rewrite H. Qed.

Lemma trimLeft_plain (fuel : nat) (a : ascii) (l : list ascii) :
  plain a = true -> Go.trimLeft fuel (a :: l) = a :: l.
Proof.
  unfold plain. intros [Ha Hs]%andb_prop. destruct fuel as [|f]; [reflexivity|].
  cbn [Go.trimLeft]. rewrite (DecodeRune_plain a l Ha).
  apply negb_true_iff in Hs. now rewrite Hs.
Qed.

Lemma trimRightRev_plain (fuel : nat) (a : ascii) (l : list ascii) :
  plain a = true -> Go.trimRightRev fuel (a :: l) = a :: l.
Proof.
  unfold plain. intros [Ha Hs]%andb_prop. destruct fuel as [|f]; [reflexivity|].
  cbn [Go.trimRightRev]. rewrite (DecodeLastRune_plain a l Ha).
  apply negb_true_iff in Hs. now rewrite Hs.
Qed.

(** White space is only trimmed at the two ends: a string that starts and
    ends with plain bytes is returned as it is. *)
Lemma TrimSpace_plain_ends (c d : ascii) (m : list ascii) :
  plain c = true -> plain d = true ->
  Go.TrimSpace (Go.of_bytes (c :: m ++ [d])) = Go.of_bytes (c :: m ++ [d]).
Proof.
  intros Hc Hd. unfold Go.TrimSpace.
  rewrite bytes_of_bytes, (trimLeft_plain _ c _ Hc).
  change (c :: m ++ [d]) with ((c :: m) ++ [d]).
  rewrite rev_app_distr.
  change (rev [d] ++ rev (c :: m)) with (d :: rev (c :: m)).
  rewrite (trimRightRev_plain _ d _ Hd).
  change (d :: rev (c :: m)) with (rev [d] ++ rev (c :: m)).
  now rewrite <- rev_app_distr, rev_involutive.
Qed.

Lemma HasPrefix_cons (a : ascii) (s : string) :
  Go.HasPrefix (String a s) (String a EmptyString) = true.
Proof. cbn [Go.HasPrefix]. rewrite Ascii.eqb_refl. now destruct s. Qed.

Lemma length_filler : Z.of_nat (length filler) = 1048576.
Proof. unfold filler. rewrite length_replicate, N_nat_Z. reflexivity. Qed.

Lemma len_framed (m : list ascii) :
  Go.len (Go.of_bytes ("{"%char :: "a"%char :: m ++ ["}"%char]))
  = Z.of_nat (length m) + 3.
Proof.
  rewrite len_of_bytes. cbn [length]. rewrite length_app. cbn [length]. lia.
Qed.

Lemma TrimSpace_framed (m : list ascii) :
  Go.TrimSpace (Go.of_bytes ("{"%char :: "a"%char :: m ++ ["}"%char]))
  = Go.of_bytes ("{"%char :: "a"%char :: m ++ ["}"%char]).
Proof. apply (TrimSpace_plain_ends "{" "}" ("a"%char :: m)); reflexivity. Qed.

Lemma len_oversized : Go.len oversized = 1048579.
Proof. unfold oversized. rewrite len_framed, length_filler. reflexivity. Qed.

Lemma TrimSpace_oversized : Go.TrimSpace oversized = oversized.
Proof. apply TrimSpace_framed. Qed.

End GoFacts.

(* ===================================================================== *)
(** * internal/converter: conversion precedence and JSON limits *)
(* ===================================================================== *)

Section ValueInduction.
Context {F : Type} (P : Value F -> Prop).
Hypothesis HNil : P VNil.
Hypothesis HBool : forall b, P (VBool b).
Hypothesis HNumber : forall f, P (VNumber f).
Hypothesis HString : forall s, P (VString s).
Hypothesis HMap : forall m, Forall (fun kv => P (snd kv)) m -> P (VMap m).
Hypothesis HSlice : forall l, Forall P l -> P (VSlice l).

(** Induction over values, with the hypothesis for every child. *)
Lemma Value_nested_ind : forall v, P v.
Proof.
  fix IH 1. intros [ | b | f | s | m | l ].
  - exact HNil.
  - apply HBool.
  - apply HNumber.
  - apply HString.
  - apply HMap. induction m as [|[k v] m IHm]; constructor; [apply IH | exact IHm].
  - apply HSlice. induction l as [|v l IHl]; constructor; [apply IH | exact IHl].
Qed.
End ValueInduction.

Section ConverterFacts.
Context `{L : GoLibrary}.
Import converter.

Lemma valueDepth_nonneg (v : Value float64) : 0 <= valueDepth v.
Proof.
  destruct v as [ | | | | m | l ]; cbn [valueDepth]; try lia.
  - induction m as [|[k v] m IH]; lia.
  - induction l as [|v l IH]; lia.
Qed.

Lemma validateDepth_too_deep (v : Value float64) (d : Z) :
  MaxJSONDepth < d -> validateDepth v d = Some ErrJSONTooDeep.
Proof.
  intros H. destruct v; simpl; destruct (Z.gtb_spec d MaxJSONDepth); try reflexivity; lia.
Qed.

(** [validateDepth] accepts exactly the values none of whose scalars, maps
    and slices lies inside more than [MaxJSONDepth] maps and slices, and
    its only error is [ErrJSONTooDeep]. *)
Lemma validateDepth_spec (v : Value float64) :
  forall d,
    (d + valueDepth v <= MaxJSONDepth -> validateDepth v d = None) /\
    (MaxJSONDepth < d + valueDepth v -> validateDepth v d = Some ErrJSONTooDeep).
Proof.
  induction v as [ | b | f | s | m IHm | l IHl ] using Value_nested_ind; intros d;
    try (simpl; destruct (Z.gtb_spec d MaxJSONDepth); split; intros; first [reflexivity | lia]).
  - (* map *)
    destruct (Z.gtb_spec d MaxJSONDepth) as [Hd|Hd].
    { split; intros H.
      - pose proof (valueDepth_nonneg (VMap m)). lia.
      - now apply validateDepth_too_deep. }
    cbn [validateDepth valueDepth]. destruct (Z.gtb_spec d MaxJSONDepth) as [?|_]; [lia|].
    induction IHm as [|[k v] m Hv _ IH].
    + split; intros; [reflexivity | lia].
    + cbn [snd] in Hv. destruct (Hv (d + 1)) as [Hok Hbad].
      destruct IH as [IHok IHbad]. split; intros H.
      * rewrite Hok by lia. apply IHok. lia.
      * destruct (Z.le_gt_cases (d + 1 + valueDepth v) MaxJSONDepth) as [Hle|Hgt].
        -- rewrite Hok by lia. apply IHbad. lia.
        -- now rewrite Hbad by lia.
  - (* slice *)
    destruct (Z.gtb_spec d MaxJSONDepth) as [Hd|Hd].
    { split; intros H.
      - pose proof (valueDepth_nonneg (VSlice l)). lia.
      - now apply validateDepth_too_deep. }
    cbn [validateDepth valueDepth]. destruct (Z.gtb_spec d MaxJSONDepth) as [?|_]; [lia|].
    induction IHl as [|v l Hv _ IH].
    + split; intros; [reflexivity | lia].
    + destruct (Hv (d + 1)) as [Hok Hbad].
      destruct IH as [IHok IHbad]. split; intros H.
      * rewrite Hok by lia. apply IHok. lia.
      * destruct (Z.le_gt_cases (d + 1 + valueDepth v) MaxJSONDepth) as [Hle|Hgt].
        -- rewrite Hok by lia. apply IHbad. lia.
        -- now rewrite Hbad by lia.
Qed.

Lemma ConvertValue_oversize (value : string) (tc js : bool) :
  MaxValueSize < Go.len value -> ConvertValue value tc js = Err ErrValueTooLarge.
Proof.
  intros H. unfold ConvertValue.
  destruct (Z.gtb_spec (Go.len value) MaxValueSize); [reflexivity | lia].
Qed.

(** Within the size limit and for a non-empty input, [ConvertValue] is the
    cascade JSON, number, boolean, string. *)
Lemma ConvertValue_cascade (value : string) (tc js : bool) :
  Go.len value <= MaxValueSize -> value <> EmptyString ->
  ConvertValue value tc js =
    if js && looksLikeJSON value then
      match TryJSON value with
      | Err err => Err err
      | Ok res => Ok (res, if isArray res then "array" else "object")%string
      end
    else if negb tc then Ok (VString value, "string"%string)
    else match TryNumeric value with
         | Some num => Ok (VNumber num, "number"%string)
         | None => match TryBoolean value with
                   | Some b => Ok (VBool b, "boolean"%string)
                   | None => Ok (VString value, "string"%string)
                   end
         end.
Proof.
  intros Hsz Hne. unfold ConvertValue.
  destruct (Z.gtb_spec (Go.len value) MaxValueSize); [lia|].
  destruct (String.eqb_spec value ""); [contradiction | reflexivity].
Qed.

Lemma ConvertValue_empty (tc js : bool) :
  ConvertValue "" tc js = Ok (VString "", "string"%string).
Proof. reflexivity. Qed.

Lemma TryJSON_depth (value : string) (v : Value float64) :
  Unmarshal value = Ok v ->
  (valueDepth v <= MaxJSONDepth -> TryJSON value = Ok v) /\
  (MaxJSONDepth < valueDepth v -> TryJSON value = Err ErrJSONTooDeep).
Proof.
  intros HU. unfold TryJSON. rewrite HU.
  destruct (validateDepth_spec v 0) as [Hok Hbad]. split; intros H.
  - now rewrite Hok by lia.
  - now rewrite Hbad by lia.
Qed.

Lemma valueDepth_deeplyNested (n : nat) :
  valueDepth (deeplyNested (F:=float64) n) = Z.of_nat n.
Proof.
  induction n as [|n IH]; [reflexivity|].
  cbn [deeplyNested valueDepth]. rewrite IH. lia.
Qed.

(** An empty map or slice is a leaf of the depth check: it counts for the
    level it sits at, not for one more. *)
Lemma valueDepth_emptyNest (n : nat) :
  valueDepth (emptyNest (F:=float64) n) = Z.of_nat n.
Proof.
  induction n as [|n IH]; [reflexivity|].
  cbn [emptyNest valueDepth]. rewrite IH. lia.
Qed.

Lemma validateDepth_emptyNest (n : nat) :
  (n <= 100)%nat -> validateDepth (emptyNest n) 0 = None.
Proof.
  intros H. apply validateDepth_spec. rewrite valueDepth_emptyNest.
  unfold MaxJSONDepth. lia.
Qed.

(** The two measures are one apart at most. *)
Lemma levels_valueDepth (v : Value float64) :
  valueDepth v <= levels v <= valueDepth v + 1.
Proof.
  induction v as [ | b | f | s | m IHm | l IHl ] using Value_nested_ind;
    try (cbn [levels valueDepth]; lia).
  - cbn [levels valueDepth].
    induction IHm as [|[k v] m Hv _ IH]; [lia|]. cbn [snd] in Hv. lia.
  - cbn [levels valueDepth].
    induction IHl as [|v l Hv _ IH]; [lia|]. lia.
Qed.

Lemma levels_deeplyNested (n : nat) :
  levels (deeplyNested (F:=float64) n) = Z.of_nat n.
Proof.
  induction n as [|n IH]; [reflexivity|].
  cbn [deeplyNested levels]. rewrite IH. lia.
Qed.

Lemma levels_emptyNest (n : nat) :
  levels (emptyNest (F:=float64) n) = Z.of_nat n + 1.
Proof.
  induction n as [|n IH]; [reflexivity|].
  cbn [emptyNest levels]. rewrite IH. lia.
Qed.

(** What the depth check decides, in levels of nesting: up to 100 levels
    pass, 102 and more fail, and at 101 levels the outcome depends on
    whether a container of the 101st level holds a value. *)
Lemma TryJSON_levels (value : string) (v : Value float64) :
  Unmarshal value = Ok v ->
  (levels v <= 100 -> TryJSON value = Ok v) /\
  (102 <= levels v -> TryJSON value = Err ErrJSONTooDeep) /\
  (levels v = 101 ->
   (TryJSON value = Err ErrJSONTooDeep <-> valueDepth v = 101) /\
   (TryJSON value = Ok v <-> valueDepth v = 100)).
Proof.
  intros HU. destruct (TryJSON_depth value v HU) as [Hok Hbad].
  pose proof (levels_valueDepth v) as Hlv. unfold MaxJSONDepth in *.
  split; [intros H; apply Hok; lia|]. split; [intros H; apply Hbad; lia|].
  intros H101. destruct (Z.le_gt_cases (valueDepth v) 100) as [Hle|Hgt].
  - rewrite (Hok Hle). split; split; intros; first [discriminate | lia | reflexivity].
  - rewrite (Hbad Hgt). split; split; intros; first [discriminate | lia | reflexivity].
Qed.

End ConverterFacts.

(** ** The oversized input under the reference library *)





(* ===================================================================== *)
(** * Claims on the type converter *)
(* ===================================================================== *)







(** C6.  The depth check examines every path of the decoded value, and
    what it bounds is the depth of the values, not the number of levels:
    [validateDepth] from depth 0 accepts a value exactly when no scalar,
    map or slice of it lies inside more than 100 maps and slices, and its
    only error is [ErrJSONTooDeep].  So a value nested 100 levels deep or
    less is converted and one nested 102 levels deep or more fails; but
    of two values nested 101 levels deep, 101 objects around a string
    fail with [ErrJSONTooDeep] while 101 arrays inside one another, the
    innermost one empty, pass the check and are converted. *)
Theorem C6_depth_check_passes_empty_innermost_container :
  (levels (F:=Z) (emptyNest 100) = 101 /\
   Unmarshal (GoLibrary:=Sample.lib) (brackets 101) = Ok (emptyNest 100) /\
   converter.ConvertValue (L:=Sample.lib) (brackets 101) true true
   = Ok (emptyNest 100, "array"%string)) /\
  (levels (F:=Z) (deeplyNested 101) = 101 /\
   Unmarshal (GoLibrary:=Sample.lib) (createDeeplyNestedJSON 101) = Ok (deeplyNested 101) /\
   converter.ConvertValue (L:=Sample.lib) (createDeeplyNestedJSON 101) true true
   = Err converter.ErrJSONTooDeep) /\
  (levels (F:=Z) (deeplyNested 100) = 100 /\
   Unmarshal (GoLibrary:=Sample.lib) (createDeeplyNestedJSON 100) = Ok (deeplyNested 100) /\
   converter.ConvertValue (L:=Sample.lib) (createDeeplyNestedJSON 100) true true
   = Ok (deeplyNested 100, "object"%string)) /\
  (forall (L : GoLibrary) (v : Value float64),
      (converter.validateDepth v 0 = None <-> valueDepth v <= 100) /\
      (converter.validateDepth v 0 <> None ->
       converter.validateDepth v 0 = Some converter.ErrJSONTooDeep) /\
      valueDepth v <= levels v <= valueDepth v + 1) /\
  (forall (L : GoLibrary) (value : string) (v : Value float64),
      Unmarshal value = Ok v ->
      (levels v <= 100 -> converter.TryJSON value = Ok v) /\
      (102 <= levels v -> converter.TryJSON value = Err converter.ErrJSONTooDeep) /\
      (levels v = 101 ->
       (converter.TryJSON value = Err converter.ErrJSONTooDeep <-> valueDepth v = 101) /\
       (converter.TryJSON value = Ok v <-> valueDepth v = 100))) /\
  (forall (L : GoLibrary) (value : string) (v : Value float64) (tc : bool),
      Unmarshal value = Ok v ->
      converter.looksLikeJSON value = true ->
      Go.len value <= converter.MaxValueSize ->
      (levels v <= 100 ->
       converter.ConvertValue value tc true
       = Ok (v, if converter.isArray v then "array" else "object")%string) /\
      (102 <= levels v ->
       converter.ConvertValue value tc true = Err converter.ErrJSONTooDeep) /\
      (levels v = 101 -> valueDepth v = 101 ->
       converter.ConvertValue value tc true = Err converter.ErrJSONTooDeep) /\
      (levels v = 101 -> valueDepth v = 100 ->
       converter.ConvertValue value tc true
       = Ok (v, if converter.isArray v then "array" else "object")%string)).
Proof.
  split; [|split; [|split; [|split; [|split]]]].
  - split; [apply (levels_emptyNest (L:=Sample.lib) 100)|].
    split; vm_compute; reflexivity.
  - split; [apply (levels_deeplyNested (L:=Sample.lib) 101)|].
    split; vm_compute; reflexivity.
  - split; [apply (levels_deeplyNested (L:=Sample.lib) 100)|].
    split; vm_compute; reflexivity.
  - intros L v. destruct (validateDepth_spec v 0) as [Hok Hbad].
    unfold converter.MaxJSONDepth in *. split; [split|split].
    + intros Hnone. destruct (Z.le_gt_cases (valueDepth v) 100) as [Hle|Hgt]; [exact Hle|].
      rewrite Hbad in Hnone by lia. discriminate.
    + intros Hle. apply Hok. lia.
    + intros Hsome. destruct (Z.le_gt_cases (valueDepth v) 100) as [Hle|Hgt].
      * exfalso. apply Hsome, Hok. lia.
      * apply Hbad. lia.
    + apply levels_valueDepth.
  - intros L value v HU. exact (TryJSON_levels value v HU).
  - intros L value v tc HU Hj Hsz.
    assert (Hne : value <> EmptyString) by (intros ->; discriminate Hj).
    destruct (TryJSON_levels value v HU) as (Hok & Hbad & H101).
    rewrite ConvertValue_cascade by assumption. rewrite Hj. cbn [andb].
    split; [intros H; now rewrite (Hok H)|]. split; [intros H; now rewrite (Hbad H)|].
    split; intros H Hd.
    + now rewrite (proj2 (proj1 (H101 H)) Hd).
    + now rewrite (proj2 (proj2 (H101 H)) Hd).
Qed.

(* ===================================================================== *)
(** * internal/config: validation order and the separator check *)
(* ===================================================================== *)

Section ConfigFacts.
Import config.

Lemma validCaseTransforms_spec (c : string) :
  index validCaseTransforms c = true <->
  c = "upper"%string \/ c = "lower"%string \/ c = "preserve"%string.
Proof.
  unfold index, validCaseTransforms.
  destruct (decide (c = "upper"%string)) as [->|H1]; [rewrite lookup_insert_eq; simpl; tauto|].
  rewrite lookup_insert_ne by congruence.
  destruct (decide (c = "lower"%string)) as [->|H2]; [rewrite lookup_insert_eq; simpl; tauto|].
  rewrite lookup_insert_ne by congruence.
  destruct (decide (c = "preserve"%string)) as [->|H3]; [rewrite lookup_insert_eq; simpl; tauto|].
  rewrite lookup_insert_ne by congruence. rewrite lookup_empty. simpl.
  split; [discriminate | tauto].
Qed.

Lemma validPrefixModes_spec (c : string) :
  index validPrefixModes c = true <->
  c = "prepend"%string \/ c = "filter_only"%string.
Proof.
  unfold index, validPrefixModes.
  destruct (decide (c = "prepend"%string)) as [->|H1]; [rewrite lookup_insert_eq; simpl; tauto|].
  rewrite lookup_insert_ne by congruence.
  destruct (decide (c = "filter_only"%string)) as [->|H2]; [rewrite lookup_insert_eq; simpl; tauto|].
  rewrite lookup_insert_ne by congruence. rewrite lookup_empty. simpl.
  split; [discriminate | tauto].
Qed.

(** The checks of [ValidateConfig] in their order: the first failing one
    is reported. *)
Lemma ValidateConfig_order (c : Config) :
  (index validCaseTransforms (CaseTransform c) = false ->
   ValidateConfig c = Some (InvalidCaseTransform (CaseTransform c))) /\
  (index validCaseTransforms (CaseTransform c) = true ->
   index validPrefixModes (PrefixMode c) = false ->
   ValidateConfig c = Some (InvalidPrefixMode (PrefixMode c))) /\
  (index validCaseTransforms (CaseTransform c) = true ->
   index validPrefixModes (PrefixMode c) = true ->
   Go.len (Separator c) <> 1 ->
   ValidateConfig c = Some (InvalidSeparator (Separator c))) /\
  (index validCaseTransforms (CaseTransform c) = true ->
   index validPrefixModes (PrefixMode c) = true ->
   Go.len (Separator c) = 1 ->
   ValidateConfig c = checkRequired 0 (RequiredVariables c)).
Proof.
  unfold ValidateConfig. repeat apply conj.
  - now intros ->.
  - now intros -> ->.
  - intros -> -> H. cbn [negb]. now destruct (Z.eqb_spec (Go.len (Separator c)) 1).
  - intros -> -> H. cbn [negb]. now destruct (Z.eqb_spec (Go.len (Separator c)) 1).
Qed.

(** A configuration that passes validation: its case rule and prefix mode
    are among the listed ones and its separator is one BYTE long. *)
Lemma ValidateConfig_valid (c : Config) :
  ValidateConfig c = None ->
  (CaseTransform c = "upper"%string \/ CaseTransform c = "lower"%string
   \/ CaseTransform c = "preserve"%string) /\
  (PrefixMode c = "prepend"%string \/ PrefixMode c = "filter_only"%string) /\
  Go.len (Separator c) = 1.
Proof.
  unfold ValidateConfig. intros H.
  destruct (index validCaseTransforms (CaseTransform c)) eqn:Hc; [|discriminate].
  destruct (index validPrefixModes (PrefixMode c)) eqn:Hm; [|discriminate].
  cbn [negb] in H. destruct (Z.eqb_spec (Go.len (Separator c)) 1) as [Hs|Hs]; [|discriminate].
  split; [now apply validCaseTransforms_spec | split; [now apply validPrefixModes_spec | exact Hs]].
Qed.

End ConfigFacts.

(** C9.  What the code does at a separator of one multi-byte character:
    with a valid case rule and prefix mode, [ValidateConfig] reaches the
    separator check (after the two membership checks) and compares
    [len(c.Separator)], the number of BYTES, with 1; the separator U+00E9
    is one character and two bytes, and is rejected with "separator must
    be a single character". *)
Theorem C9_separator_counted_in_bytes :
  Go.RuneCountInString eAcute = 1 /\
  Go.len eAcute = 2 /\
  config.ValidateConfig
    {| config.Separator := eAcute; config.CaseTransform := "upper";
       config.Prefix := ""; config.PrefixMode := "prepend";
       config.RequiredVariables := []; config.EnableTypeConversion := true;
       config.EnableJSONParsing := true |}
  = Some (config.InvalidSeparator eAcute) /\
  (forall c : config.Config,
      config.index config.validCaseTransforms (config.CaseTransform c) = true ->
      config.index config.validPrefixModes (config.PrefixMode c) = true ->
      (config.ValidateConfig c = Some (config.InvalidSeparator (config.Separator c))
       <-> Go.len (config.Separator c) <> 1)).
Proof.
  split; [reflexivity|]. split; [reflexivity|]. split; [vm_compute; reflexivity|].
  intros c Hc Hm. destruct (ValidateConfig_order c) as (_ & _ & Hsep & Hreq). split.
  - intros H Hone. rewrite (Hreq Hc Hm Hone) in H.
    clear -H. generalize dependent 0%nat.
    induction (config.RequiredVariables c) as [|x l IH]; intros n H; [discriminate|].
    cbn [config.checkRequired] in H.
    destruct (String.eqb (Go.TrimSpace x) ""); [discriminate | eauto].
  - intros H. now apply Hsep.
Qed.

(* ===================================================================== *)
(** * internal/resolver: resolution under the preserve rule *)
(* ===================================================================== *)

Section ResolverFacts.
Context `{L : GoLibrary}.
Import resolver.

Lemma TransformSegments_preserve (path : list string) :
  TransformSegments path "preserve" = path.
Proof.
  unfold TransformSegments. induction path as [|s path IH]; [reflexivity|].
  cbn [map]. now rewrite IH.
Qed.

Lemma hasEmptySegment_false (path : list string) :
  Forall (fun segment => Go.TrimSpace segment <> EmptyString) path ->
  hasEmptySegment path = false.
Proof.
  unfold hasEmptySegment. induction 1 as [|s path Hs _ IH]; [reflexivity|].
  cbn [existsb]. rewrite IH.
  destruct (String.eqb_spec (Go.TrimSpace s) ""); [contradiction | reflexivity].
Qed.

(** Under the preserve rule the resolved name is the prefix policy applied
    to the joined segments. *)
Lemma Transform_preserve (r : Resolver) (path : list string) :
  caseTransform r = "preserve"%string -> path <> [] ->
  Forall (fun segment => Go.TrimSpace segment <> EmptyString) path ->
  Transform r path = Ok (ApplyPrefix (Go.Join path (separator r)) (prefix r) (prefixMode r)).
Proof.
  intros Hc Hne Hseg. unfold Transform.
  destruct path as [|s path]; [contradiction|]. cbn [length Nat.eqb].
  rewrite (hasEmptySegment_false _ Hseg), Hc.
  now rewrite TransformSegments_preserve.
Qed.

End ResolverFacts.

(** C10 (as amended).  For every valid configuration with the preserve
    case rule and every path with at least one segment, none of them empty
    or only white space, the resolved name is, byte for byte, the segments
    joined with the separator when the prefix is empty or the prefix mode
    is filter_only, and the prefix followed by that join when the prefix is
    not empty and the mode is prepend; a valid configuration is in one of
    the two cases. *)
Theorem C10_preserve_resolution `{L : GoLibrary}
    (cfg : config.Config) (path : list string) :
  config.ValidateConfig cfg = None ->
  config.CaseTransform cfg = "preserve"%string ->
  path <> [] ->
  Forall (fun segment => Go.TrimSpace segment <> EmptyString) path ->
  (config.Prefix cfg = EmptyString \/ config.PrefixMode cfg = "filter_only"%string ->
   resolver.Transform
     (resolver.NewResolver (config.Separator cfg) (config.CaseTransform cfg)
                           (config.Prefix cfg) (config.PrefixMode cfg)) path
   = Ok (Go.Join path (config.Separator cfg))) /\
  (config.Prefix cfg <> EmptyString -> config.PrefixMode cfg = "prepend"%string ->
   resolver.Transform
     (resolver.NewResolver (config.Separator cfg) (config.CaseTransform cfg)
                           (config.Prefix cfg) (config.PrefixMode cfg)) path
   = Ok (config.Prefix cfg +:+ Go.Join path (config.Separator cfg))) /\
  ((config.Prefix cfg = EmptyString \/ config.PrefixMode cfg = "filter_only"%string) \/
   (config.Prefix cfg <> EmptyString /\ config.PrefixMode cfg = "prepend"%string)).
Proof.
  intros Hvalid Hcase Hne Hseg.
  destruct (ValidateConfig_valid cfg Hvalid) as (_ & Hmode & _).
  rewrite Transform_preserve by assumption. cbn [resolver.NewResolver resolver.separator
    resolver.prefix resolver.prefixMode]. unfold resolver.ApplyPrefix, resolver.PrependPrefix.
  split; [|split].
  - intros [->| ->]; [reflexivity|].
    destruct (String.eqb (config.Prefix cfg) ""); reflexivity.
  - intros Hp ->. destruct (String.eqb_spec (config.Prefix cfg) ""); [contradiction | reflexivity].
  - destruct (String.eqb_spec (config.Prefix cfg) "") as [Hp|Hp]; [tauto|].
    destruct Hmode as [Hm|Hm]; [right | left]; tauto.
Qed.

(** C10, two runs: filter_only keeps the join, prepend puts the prefix
    before it. *)
Lemma C10_preserve_resolution_witness :
  resolver.Transform (L:=Sample.lib)
    (resolver.NewResolver "." "preserve" "App_" "filter_only") ["App_Db"; "Host"]%string
  = Ok "App_Db.Host"%string /\
  resolver.Transform (L:=Sample.lib)
    (resolver.NewResolver "." "preserve" "App_" "prepend") ["Db"; "Host"]%string
  = Ok "App_Db.Host"%string.
Proof.
  split.
  - refine (proj1 (C10_preserve_resolution (L:=Sample.lib)
      {| config.Separator := "."; config.CaseTransform := "preserve";
         config.Prefix := "App_"; config.PrefixMode := "filter_only";
         config.RequiredVariables := []; config.EnableTypeConversion := true;
         config.EnableJSONParsing := true |} ["App_Db"; "Host"]%string _ _ _ _) _).
    + vm_compute. reflexivity.
    + reflexivity.
    + discriminate.
    + repeat constructor; vm_compute; discriminate.
    + right. reflexivity.
  - refine (proj1 (proj2 (C10_preserve_resolution (L:=Sample.lib)
      {| config.Separator := "."; config.CaseTransform := "preserve";
         config.Prefix := "App_"; config.PrefixMode := "prepend";
         config.RequiredVariables := []; config.EnableTypeConversion := true;
         config.EnableJSONParsing := true |} ["Db"; "Host"]%string _ _ _ _)) _ _).
    + vm_compute. reflexivity.
    + reflexivity.
    + discriminate.
    + repeat constructor; vm_compute; discriminate.
    + discriminate.
    + reflexivity.
Defined.

(** C10 as stated fails under the prepend mode with a prefix: with the
    valid configuration separator "_", preserve, prefix "APP_", prepend,
    the path [db, host] resolves to "APP_db_host", not to the join
    "db_host". *)
Lemma C10_counterexample :
  config.ValidateConfig
    {| config.Separator := "_"; config.CaseTransform := "preserve";
       config.Prefix := "APP_"; config.PrefixMode := "prepend";
       config.RequiredVariables := []; config.EnableTypeConversion := true;
       config.EnableJSONParsing := true |} = None /\
  resolver.Transform (L:=Sample.lib)
    (resolver.NewResolver "_" "preserve" "APP_" "prepend") ["db"; "host"]%string
  = Ok "APP_db_host"%string /\
  Go.Join ["db"; "host"]%string "_" = "db_host"%string /\
  resolver.Transform (L:=Sample.lib)
    (resolver.NewResolver "_" "preserve" "APP_" "prepend") ["db"; "host"]%string
  <> Ok (Go.Join ["db"; "host"]%string "_").
Proof.
  split; [vm_compute; reflexivity|]. split; [vm_compute; reflexivity|].
  split; [reflexivity|]. vm_compute. discriminate.
Qed.

(* ===================================================================== *)
(** * internal/fetcher: the cache *)
(* ===================================================================== *)

Section FetcherFacts.
Import fetcher.

Lemma Fetch_cached (f : Fetcher) (env : Go.Env) (name v : string) :
  cache f !! name = Some v -> Fetch f env name = (Ok v, f).
Proof. intros H. unfold Fetch. now rewrite H. Qed.

(** A successful [Fetch] leaves the returned value in the cache. *)
Lemma Fetch_ok_cached (f f1 : Fetcher) (env : Go.Env) (name v : string) :
  Fetch f env name = (Ok v, f1) -> cache f1 !! name = Some v.
Proof.
  unfold Fetch. destruct (cache f !! name) as [c|] eqn:Hc.
  - intros [= <- <-]. exact Hc.
  - destruct (Go.LookupEnv env name) as [value|]; [|discriminate].
    destruct (Go.len value >? MaxValueSize); [discriminate|].
    intros [= <- <-]. cbn [cache]. apply lookup_insert_eq.
Qed.

(** [Fetch] never changes or removes an entry of the cache. *)
Lemma Fetch_keeps (f : Fetcher) (env : Go.Env) (other name v : string) :
  cache f !! name = Some v -> cache (snd (Fetch f env other)) !! name = Some v.
Proof.
  intros H. unfold Fetch. destruct (cache f !! other) as [c|] eqn:Hc; [exact H|].
  destruct (Go.LookupEnv env other) as [value|]; [|exact H].
  destruct (Go.len value >? MaxValueSize); [exact H|].
  cbn [snd cache]. rewrite lookup_insert_ne; [exact H|]. intros ->. congruence.
Qed.

Lemma afterFetches_keeps (calls : list (Go.Env * string)) :
  forall (f : Fetcher) (name v : string),
    cache f !! name = Some v -> cache (afterFetches f calls) !! name = Some v.
Proof.
  induction calls as [|[env other] calls IH]; intros f name v H; [exact H|].
  cbn [afterFetches fold_left fst snd]. apply IH. now apply Fetch_keeps.
Qed.

(** A failing [Fetch] returns the fetcher as it was. *)
Lemma Fetch_err_unchanged (f f1 : Fetcher) (env : Go.Env) (name : string) (e : error) :
  Fetch f env name = (Err e, f1) -> f1 = f.
Proof.
  unfold Fetch. destruct (cache f !! name); [discriminate|].
  destruct (Go.LookupEnv env name) as [value|]; [|now intros [= _ <-]].
  destruct (Go.len value >? MaxValueSize); [now intros [= _ <-] | discriminate].
Qed.

End FetcherFacts.

(** C4.  Once [Fetch] of a name has succeeded with a raw value, every later
    [Fetch] of that name on the same fetcher (no [Clear] in between, any
    other fetches in between) returns that same value and leaves the
    fetcher as it is, whatever the environment has become: the value is
    read from the cache.  A [Fetch] that fails with [ErrValueTooLarge]
    leaves the cache as it was. *)
Theorem C4_fetch_is_cached :
  (forall (f f1 : fetcher.Fetcher) (env : Go.Env) (name v : string),
      fetcher.Fetch f env name = (Ok v, f1) ->
      forall (calls : list (Go.Env * string)) (env' : Go.Env),
        fetcher.cache (afterFetches f1 calls) !! name = Some v /\
        fetcher.Fetch (afterFetches f1 calls) env' name
        = (Ok v, afterFetches f1 calls)) /\
  (forall (f f1 : fetcher.Fetcher) (env : Go.Env) (name : string),
      fetcher.Fetch f env name = (Err fetcher.ErrValueTooLarge, f1) ->
      fetcher.cache f1 = fetcher.cache f /\ fetcher.cache f1 !! name = None).
Proof.
  split.
  - intros f f1 env name v H calls env'.
    assert (Hc : fetcher.cache (afterFetches f1 calls) !! name = Some v)
      by (apply afterFetches_keeps; eapply Fetch_ok_cached; exact H).
    split; [exact Hc | now apply Fetch_cached].
  - intros f f1 env name H. rewrite (Fetch_err_unchanged _ _ _ _ _ H). split; [reflexivity|].
    unfold fetcher.Fetch in H. destruct (fetcher.cache f !! name); [discriminate | reflexivity].
Qed.

(** C4, two runs: a value fetched once survives the variable being unset
    and changed; an oversized value is refused and not stored. *)
Lemma C4_fetch_is_cached_witness :
  fetcher.Fetch
    (afterFetches (snd (fetcher.Fetch fetcher.New {[ "HOME"%string := "/root"%string ]} "HOME"))
                  [(∅, "HOME"%string); ({[ "USER"%string := "me"%string ]}, "USER"%string)])
    {[ "HOME"%string := "/tmp"%string ]} "HOME"
  = (Ok "/root"%string,
     afterFetches (snd (fetcher.Fetch fetcher.New {[ "HOME"%string := "/root"%string ]} "HOME"))
                  [(∅, "HOME"%string); ({[ "USER"%string := "me"%string ]}, "USER"%string)]) /\
  fetcher.cache (snd (fetcher.Fetch fetcher.New {[ "BIG"%string := oversized ]} "BIG")) = ∅.
Proof.
  destruct C4_fetch_is_cached as [Hhit Hbig]. split.
  - refine (proj2 (Hhit fetcher.New _ {[ "HOME"%string := "/root"%string ]} "HOME"%string
                        "/root"%string _ _ _)).
    vm_compute. reflexivity.
  - refine (proj1 (Hbig fetcher.New _ {[ "BIG"%string := oversized ]} "BIG"%string _)).
    unfold fetcher.Fetch, Go.LookupEnv. cbn [fetcher.New fetcher.cache].
    rewrite lookup_empty, lookup_singleton_eq, len_oversized. reflexivity.
Defined.

(* ===================================================================== *)
(** * internal/provider: the lifecycle *)
(* ===================================================================== *)

Section ProviderFacts.
Context `{L : GoLibrary}.
Import provider.

Lemma setState_setState (p : Provider) (s s' : State) :
  setState (setState p s) s' = setState p s'.
Proof. reflexivity. Qed.

Lemma state_setState (p : Provider) (s : State) : state (setState p s) = s.
Proof. reflexivity. Qed.

(** [Init] starts by overwriting the state: the state it is called in has
    no influence on what it does. *)
Lemma Init_forgets_state (p : Provider) (s : State) (env : Go.Env) (req : InitRequest) :
  Init (setState p s) env req = Init p env req.
Proof. reflexivity. Qed.

Lemma missing_guard (env : Go.Env) (required : list string) :
  (if (0 <? length required)%nat then missingVariables env required else [])
  = missingVariables env required.
Proof. now destruct required. Qed.

(** The three ways [Init] ends. *)
Lemma Init_invalid (p : Provider) (env : Go.Env) (req : InitRequest)
    (cfg : config.Config) (err : config.error) :
  config.ParseConfig (Config_ req) = Ok cfg ->
  config.ValidateConfig cfg = Some err ->
  Init p env req = (Failure (StatusError InvalidArgument (ConfigValidationFailed err)),
                    setState p StateUninitialized).
Proof. intros HP HV. unfold Init. now rewrite HP, HV. Qed.

Lemma Init_missing (p : Provider) (env : Go.Env) (req : InitRequest) (cfg : config.Config) :
  config.ParseConfig (Config_ req) = Ok cfg ->
  config.ValidateConfig cfg = None ->
  missingVariables env (config.RequiredVariables cfg) <> [] ->
  Init p env req =
    (Failure (StatusError InvalidArgument
       (Text ("required environment variables missing: "
              +:+ Go.fmtStrings (missingVariables env (config.RequiredVariables cfg))))),
     setState p StateUninitialized).
Proof.
  intros HP HV Hm. unfold Init. rewrite HP, HV, missing_guard.
  destruct (missingVariables env (config.RequiredVariables cfg)); [contradiction | reflexivity].
Qed.

Lemma Init_success (p : Provider) (env : Go.Env) (req : InitRequest) (cfg : config.Config) :
  config.ParseConfig (Config_ req) = Ok cfg ->
  config.ValidateConfig cfg = None ->
  missingVariables env (config.RequiredVariables cfg) = [] ->
  Init p env req =
    (Response MkInitResponse,
     {| alias := Alias req; config := Some cfg;
        fetcher := match fetcher p with None => Some fetcher.New | Some f => Some f end;
        resolver := Some (resolver.NewResolver (config.Separator cfg) (config.CaseTransform cfg)
                                               (config.Prefix cfg) (config.PrefixMode cfg));
        state := StateReady |}).
Proof. intros HP HV Hm. unfold Init. now rewrite HP, HV, missing_guard, Hm. Qed.

Lemma ParseConfig_total (pbConfig : config.Struct) :
  exists cfg, config.ParseConfig pbConfig = Ok cfg.
Proof. unfold config.ParseConfig. destruct pbConfig; eauto. Qed.

Lemma elem_of_missingVariables (env : Go.Env) (required : list string) (name : string) :
  name ∈ missingVariables env required <-> name ∈ required /\ Go.LookupEnv env name = None.
Proof. unfold missingVariables. rewrite list_elem_of_filter. tauto. Qed.

(** A path of one segment is not resolved: whatever the separator, case
    rule and prefix, [Fetch] looks up the segment itself. *)
Lemma Fetch_single_segment (p : Provider) (env : Go.Env) (name : string) :
  state p = StateReady -> Go.TrimSpace name <> EmptyString ->
  Fetch p env {| Path := [name] |} = fetchVariable p env name.
Proof.
  intros Hready Hname. unfold Fetch, GetState.
  rewrite (bool_decide_eq_true_2 _ Hready). cbn [negb Path length Nat.eqb firstEmptySegment].
  destruct (String.eqb_spec (Go.TrimSpace name) ""); [contradiction | reflexivity].
Qed.

(** ** No handler panics on a provider built by the handlers *)

Lemma New_wellFormed : wellFormed New.
Proof. intros H. discriminate H. Qed.

Lemma Init_wellFormed (p : Provider) (env : Go.Env) (req : InitRequest) :
  wellFormed (snd (Init p env req)).
Proof.
  destruct (ParseConfig_total (Config_ req)) as [cfg HP].
  destruct (config.ValidateConfig cfg) as [err|] eqn:HV.
  - rewrite (Init_invalid p env req cfg err HP HV). intros H. discriminate H.
  - destruct (missingVariables env (config.RequiredVariables cfg)) eqn:Hm.
    + rewrite (Init_success p env req cfg HP HV Hm). intros _. cbn.
      repeat split; eauto. destruct (fetcher p); eauto.
    + rewrite (Init_missing p env req cfg HP HV) by (rewrite Hm; discriminate).
      intros H. discriminate H.
Qed.

Lemma Shutdown_wellFormed (p : Provider) : wellFormed (snd (Shutdown p)).
Proof. intros H. discriminate H. Qed.

Lemma fetchVariable_wellFormed (p : Provider) (env : Go.Env) (varName : string) :
  wellFormed p -> state p = StateReady ->
  fst (fetchVariable p env varName) <> Panic /\
  wellFormed (snd (fetchVariable p env varName)).
Proof.
  intros Hwf Hready. destruct (Hwf Hready) as ([cfg Hc] & [f Hf] & Hr).
  unfold fetchVariable. rewrite Hc, Hf.
  assert (Hwf' : forall f', wellFormed {| alias := alias p; config := Some cfg;
                                          fetcher := Some f'; resolver := resolver p;
                                          state := state p |})
    by (intros f' _; cbn; eauto).
  match goal with |- context [if ?c then _ else _] => destruct c end;
    [split; [discriminate | exact Hwf]|].
  destruct (fetcher.Fetch f env varName) as [res f'].
  destruct res as [value|[|]]; [|split; [discriminate | apply Hwf'] ..].
  match goal with |- context [match (if ?c then ?a else ?b) with _ => _ end] =>
    destruct (if c then a else b) as [convertedValue|err] end;
    [|split; [discriminate | apply Hwf']].
  destruct (toProtoValue convertedValue) as [protoValue|e]; [|split; [discriminate | apply Hwf']].
  destruct (NewStruct protoValue); split; first [discriminate | apply Hwf'].
Qed.

Lemma Fetch_wellFormed (p : Provider) (env : Go.Env) (req : FetchRequest) :
  wellFormed p ->
  fst (Fetch p env req) <> Panic /\ wellFormed (snd (Fetch p env req)).
Proof.
  intros Hwf. unfold Fetch, GetState.
  destruct (decide (state p = StateReady)) as [Hready|Hno].
  2:{ rewrite (bool_decide_eq_false_2 _ Hno). split; [discriminate | exact Hwf]. }
  rewrite (bool_decide_eq_true_2 _ Hready). cbn [negb].
  destruct (length (Path req) =? 0)%nat; [split; [discriminate | exact Hwf]|].
  destruct (firstEmptySegment 0 (Path req)); [split; [discriminate | exact Hwf]|].
  destruct (Hwf Hready) as (_ & _ & [r Hr]). rewrite Hr.
  destruct (Path req) as [|s [|s' rest]].
  - destruct (resolver.Transform r []); [now apply fetchVariable_wellFormed|].
    split; [discriminate | exact Hwf].
  - now apply fetchVariable_wellFormed.
  - destruct (resolver.Transform r (s :: s' :: rest)); [now apply fetchVariable_wellFormed|].
    split; [discriminate | exact Hwf].
Qed.

End ProviderFacts.

(** C3.  For every path, environment and provider, a [Fetch] issued while
    the state is not [StateReady] fails with the status
    [FailedPrecondition]; it returns no value and leaves the provider as it
    was. *)
Theorem C3_fetch_requires_ready `{L : GoLibrary}
    (p : provider.Provider) (env : Go.Env) (req : provider.FetchRequest) :
  provider.GetState p <> provider.StateReady ->
  provider.Fetch p env req
  = (provider.Failure (provider.StatusError provider.FailedPrecondition
                         (provider.Text "provider not initialized")), p).
Proof.
  intros H. unfold provider.Fetch.
  now rewrite (bool_decide_eq_false_2 _ H).
Qed.

(** C3, two runs: a new provider is Uninitialized, and one caught in the
    middle of [Init] is Initializing; the variable exists in both. *)
Lemma C3_fetch_requires_ready_witness :
  provider.Fetch (L:=Sample.lib) provider.New {[ "HOME"%string := "/root"%string ]}
                 (fetchPath ["HOME"%string])
  = (provider.Failure (provider.StatusError provider.FailedPrecondition
                         (provider.Text "provider not initialized")), provider.New) /\
  fst (provider.Fetch (L:=Sample.lib)
         (provider.setState provider.New provider.StateInitializing)
         {[ "HOME"%string := "/root"%string ]} (fetchPath ["HOME"%string]))
  = provider.Failure (provider.StatusError provider.FailedPrecondition
                        (provider.Text "provider not initialized")).
Proof.
  split.
  - apply (C3_fetch_requires_ready (L:=Sample.lib)). discriminate.
  - rewrite (C3_fetch_requires_ready (L:=Sample.lib)); [reflexivity | discriminate].
Defined.

Section MessageFacts.

Lemma append_cons (a : ascii) (s t : string) : String a s +:+ t = String a (s +:+ t).
Proof. reflexivity. Qed.

Lemma append_nil (t : string) : "" +:+ t = t.
Proof. reflexivity. Qed.

Lemma append_empty_r (s : string) : s +:+ "" = s.
Proof.
  induction s as [|a s IH]; [reflexivity|]. now rewrite append_cons, IH.
Qed.

Lemma append_assoc (a b c : string) : (a +:+ b) +:+ c = a +:+ (b +:+ c).
Proof.
  induction a as [|x a IH]; [reflexivity|]. now rewrite !append_cons, IH.
Qed.

(** Every element of the list is written out by [strings.Join]. *)
Lemma Join_occurs (elems : list string) (sep name : string) :
  name ∈ elems -> exists before after, Go.Join elems sep = before +:+ name +:+ after.
Proof.
  induction elems as [|e rest IH]; intros Hin; [now apply not_elem_of_nil in Hin|].
  apply elem_of_cons in Hin. destruct rest as [|e' rest].
  - destruct Hin as [->|Hin]; [|now apply not_elem_of_nil in Hin].
    exists EmptyString, EmptyString. cbn [Go.Join]. now rewrite append_nil, append_empty_r.
  - change (Go.Join (e :: e' :: rest) sep) with (e +:+ sep +:+ Go.Join (e' :: rest) sep).
    destruct Hin as [->|Hin].
    + exists EmptyString, (sep +:+ Go.Join (e' :: rest) sep). now rewrite append_nil.
    + destruct (IH Hin) as (before & after & ->).
      exists (e +:+ sep +:+ before), after. now rewrite !append_assoc.
Qed.

(** The [%v] rendering of a list of names writes out every one of them,
    between the brackets. *)
Lemma fmtStrings_occurs (l : list string) (name : string) :
  name ∈ l -> exists before after, Go.fmtStrings l = "[" +:+ before +:+ name +:+ after +:+ "]".
Proof.
  intros Hin. destruct (Join_occurs l " " name Hin) as (before & after & HJ).
  exists before, after. unfold Go.fmtStrings. rewrite HJ. now rewrite !append_assoc.
Qed.

End MessageFacts.

(** C7.  When the configuration of the request passes validation and some
    required variable is absent from the environment, [Init] fails with
    one error whose message lists all the missing names, in the order of
    the configuration: the text is "required environment variables
    missing: " followed by the missing names between brackets, separated
    by single spaces; a name is listed exactly when it is required and the
    environment does not have it, so every such name, not only the first,
    is written out in the message.  The state afterwards is
    [StateUninitialized] and the stored configuration is untouched. *)
Theorem C7_missing_required_variables `{L : GoLibrary}
    (p : provider.Provider) (env : Go.Env) (req : provider.InitRequest)
    (cfg : config.Config) :
  config.ParseConfig (provider.Config_ req) = Ok cfg ->
  config.ValidateConfig cfg = None ->
  (exists name, name ∈ config.RequiredVariables cfg /\ Go.LookupEnv env name = None) ->
  fst (provider.Init p env req)
  = provider.Failure (provider.StatusError provider.InvalidArgument
      (provider.Text ("required environment variables missing: "
         +:+ Go.fmtStrings (provider.missingVariables env (config.RequiredVariables cfg))))) /\
  (forall name, name ∈ provider.missingVariables env (config.RequiredVariables cfg)
                <-> name ∈ config.RequiredVariables cfg /\ Go.LookupEnv env name = None) /\
  provider.state (snd (provider.Init p env req)) = provider.StateUninitialized /\
  provider.config (snd (provider.Init p env req)) = provider.config p /\
  fst (provider.Init p env req)
  = provider.Failure (provider.StatusError provider.InvalidArgument
      (provider.Text ("required environment variables missing: ["
         +:+ Go.Join (provider.missingVariables env (config.RequiredVariables cfg)) " "
         +:+ "]"))) /\
  (forall name,
      name ∈ config.RequiredVariables cfg -> Go.LookupEnv env name = None ->
      exists before after,
        fst (provider.Init p env req)
        = provider.Failure (provider.StatusError provider.InvalidArgument
            (provider.Text ("required environment variables missing: ["
               +:+ before +:+ name +:+ after +:+ "]")))) /\
  provider.missingVariables env (config.RequiredVariables cfg)
    `sublist_of` config.RequiredVariables cfg.
Proof.
  intros HP HV (name & Hin & Hno).
  assert (Hm : provider.missingVariables env (config.RequiredVariables cfg) <> []).
  { intros Hnil. assert (Hel : name ∈ provider.missingVariables env (config.RequiredVariables cfg))
      by (apply elem_of_missingVariables; tauto).
    rewrite Hnil in Hel. now apply not_elem_of_nil in Hel. }
  rewrite (Init_missing p env req cfg HP HV Hm). cbn [fst snd].
  split; [reflexivity|]. split; [intros n; apply elem_of_missingVariables|].
  split; [reflexivity|]. split; [reflexivity|]. split; [reflexivity|].
  split; [|apply sublist_filter].
  intros n Hn Hnone.
  destruct (fmtStrings_occurs (provider.missingVariables env (config.RequiredVariables cfg)) n)
    as (before & after & Hfmt); [apply elem_of_missingVariables; tauto|].
  exists before, after. rewrite Hfmt. reflexivity.
Qed.

(** C7, two runs.  The scenario: DB_URL and API_KEY required, only DB_URL
    set.  Then three names required and two of them missing: both are
    listed. *)
Lemma C7_missing_required_variables_witness :
  (fst (provider.Init (L:=Sample.lib) provider.New
          {[ "DB_URL"%string := "postgres://db"%string ]}
          (initWith [("required_variables"%string,
                      VSlice [VString "DB_URL"; VString "API_KEY"])]))
   = provider.Failure (provider.StatusError provider.InvalidArgument
       (provider.Text "required environment variables missing: [API_KEY]")) /\
   provider.state (snd (provider.Init (L:=Sample.lib) provider.New
          {[ "DB_URL"%string := "postgres://db"%string ]}
          (initWith [("required_variables"%string,
                      VSlice [VString "DB_URL"; VString "API_KEY"])])))
   = provider.StateUninitialized) /\
  fst (provider.Init (L:=Sample.lib) provider.New
         {[ "DB_URL"%string := "postgres://db"%string ]}
         (initWith [("required_variables"%string,
                     VSlice [VString "API_KEY"; VString "DB_URL"; VString "TOKEN"])]))
  = provider.Failure (provider.StatusError provider.InvalidArgument
      (provider.Text "required environment variables missing: [API_KEY TOKEN]")).
Proof.
  split.
  - pose proof (C7_missing_required_variables (L:=Sample.lib) provider.New
      {[ "DB_URL"%string := "postgres://db"%string ]}
      (initWith [("required_variables"%string, VSlice [VString "DB_URL"; VString "API_KEY"])])
      {| config.Separator := "_"; config.CaseTransform := "upper"; config.Prefix := "";
         config.PrefixMode := "prepend";
         config.RequiredVariables := ["DB_URL"; "API_KEY"]%string;
         config.EnableTypeConversion := true; config.EnableJSONParsing := true |}) as H.
    destruct H as (_ & _ & Hstate & _ & Hmsg & _).
    + vm_compute. reflexivity.
    + vm_compute. reflexivity.
    + exists "API_KEY"%string. split; [|vm_compute; reflexivity].
      apply list_elem_of_In. cbn. tauto.
    + split; [|exact Hstate]. rewrite Hmsg. vm_compute. reflexivity.
  - pose proof (C7_missing_required_variables (L:=Sample.lib) provider.New
      {[ "DB_URL"%string := "postgres://db"%string ]}
      (initWith [("required_variables"%string,
                  VSlice [VString "API_KEY"; VString "DB_URL"; VString "TOKEN"])])
      {| config.Separator := "_"; config.CaseTransform := "upper"; config.Prefix := "";
         config.PrefixMode := "prepend";
         config.RequiredVariables := ["API_KEY"; "DB_URL"; "TOKEN"]%string;
         config.EnableTypeConversion := true; config.EnableJSONParsing := true |}) as H.
    destruct H as (_ & _ & _ & _ & Hmsg & _).
    + vm_compute. reflexivity.
    + vm_compute. reflexivity.
    + exists "TOKEN"%string. split; [|vm_compute; reflexivity].
      apply list_elem_of_In. cbn. tauto.
    + rewrite Hmsg. vm_compute. reflexivity.
Defined.

(** C8 (as amended).  [Init] makes no check of the state it is called in:
    from every state it runs as it does from any other.  When the
    configuration passes validation and no required variable is missing it
    answers, replaces the stored configuration and ends in [StateReady];
    whenever it fails it keeps the stored configuration and ends in
    [StateUninitialized]. *)
Theorem C8_init_runs_in_every_state `{L : GoLibrary}
    (p : provider.Provider) (s : provider.State) (env : Go.Env)
    (req : provider.InitRequest) :
  provider.Init (provider.setState p s) env req = provider.Init p env req /\
  (forall cfg,
      config.ParseConfig (provider.Config_ req) = Ok cfg ->
      config.ValidateConfig cfg = None ->
      provider.missingVariables env (config.RequiredVariables cfg) = [] ->
      fst (provider.Init (provider.setState p s) env req)
      = provider.Response provider.MkInitResponse /\
      provider.config (snd (provider.Init (provider.setState p s) env req)) = Some cfg /\
      provider.state (snd (provider.Init (provider.setState p s) env req))
      = provider.StateReady) /\
  (fst (provider.Init (provider.setState p s) env req)
   <> provider.Response provider.MkInitResponse ->
   provider.config (snd (provider.Init (provider.setState p s) env req))
   = provider.config p /\
   provider.state (snd (provider.Init (provider.setState p s) env req))
   = provider.StateUninitialized).
Proof.
  rewrite Init_forgets_state. split; [reflexivity|]. split.
  - intros cfg HP HV Hm. rewrite (Init_success p env req cfg HP HV Hm). now cbn.
  - destruct (ParseConfig_total (provider.Config_ req)) as [cfg HP].
    destruct (config.ValidateConfig cfg) as [err|] eqn:HV.
    + rewrite (Init_invalid p env req cfg err HP HV). now cbn.
    + destruct (provider.missingVariables env (config.RequiredVariables cfg)) eqn:Hm.
      * rewrite (Init_success p env req cfg HP HV Hm). cbn. congruence.
      * rewrite (Init_missing p env req cfg HP HV) by (rewrite Hm; discriminate). now cbn.
Qed.

(** C8, a run: a provider put in each of the four other states is
    initialized all the same. *)
Lemma C8_init_runs_in_every_state_witness :
  Forall (fun s =>
            fst (provider.Init (L:=Sample.lib) (provider.setState provider.New s) ∅
                               (initWith [("separator"%string, VString "-")]))
            = provider.Response provider.MkInitResponse /\
            provider.state (snd (provider.Init (L:=Sample.lib)
                                   (provider.setState provider.New s) ∅
                                   (initWith [("separator"%string, VString "-")])))
            = provider.StateReady)
         [provider.StateInitializing; provider.StateReady;
          provider.StateShuttingDown; provider.StateStopped].
Proof.
  assert (H : forall s,
             fst (provider.Init (L:=Sample.lib) (provider.setState provider.New s) ∅
                                (initWith [("separator"%string, VString "-")]))
             = provider.Response provider.MkInitResponse /\
             provider.state (snd (provider.Init (L:=Sample.lib)
                                    (provider.setState provider.New s) ∅
                                    (initWith [("separator"%string, VString "-")])))
             = provider.StateReady).
  { intros s.
    destruct (C8_init_runs_in_every_state (L:=Sample.lib) provider.New s ∅
                (initWith [("separator"%string, VString "-")])) as (_ & Hok & _).
    destruct (Hok {| config.Separator := "-"; config.CaseTransform := "upper";
                     config.Prefix := ""; config.PrefixMode := "prepend";
                     config.RequiredVariables := []; config.EnableTypeConversion := true;
                     config.EnableJSONParsing := true |})
      as (Hres & _ & Hst); [vm_compute; reflexivity .. |].
    split; assumption. }
  repeat (apply List.Forall_cons; [apply H|]). apply List.Forall_nil.
Defined.

(** C8 as stated fails: a provider in [StateReady], holding the default
    configuration (separator "_"), is initialized again; [Init] runs,
    answers, and the stored configuration is replaced (separator "-"). *)
Lemma C8_counterexample :
  provider.state readyProvider = provider.StateReady /\
  config.Separator <$> provider.config readyProvider = Some "_"%string /\
  fst (provider.Init (L:=Sample.lib) readyProvider ∅ (initWith [("separator"%string, VString "-")]))
  = provider.Response provider.MkInitResponse /\
  config.Separator <$>
    provider.config (snd (provider.Init (L:=Sample.lib) readyProvider ∅
                            (initWith [("separator"%string, VString "-")])))
  = Some "-"%string.
Proof. repeat apply conj; vm_compute; reflexivity. Qed.

(** C2, what the code does.  After [Init] with prefix "MYAPP_", mode
    prepend and the upper case rule, in an environment where MYAPP_PORT is
    8080, the provider is ready; the resolver maps the path [port] to
    MYAPP_PORT, but [Fetch] does not ask the resolver for a path of one
    segment: it looks up the variable "port" itself and fails with
    [NotFound].  Only the literal name MYAPP_PORT fetches the number. *)
Theorem C2_single_segment_is_looked_up_directly :
  provider.state portProvider = provider.StateReady /\
  (fun r => resolver.Transform (L:=Sample.lib) r ["port"%string])
    <$> provider.resolver portProvider
  = Some (Ok "MYAPP_PORT"%string) /\
  failure (fst (provider.Fetch (L:=Sample.lib) portProvider portEnv
                  (fetchPath ["port"%string])))
  = Some (provider.StatusError provider.NotFound
            (provider.Text "environment variable not found: port")) /\
  fetched (fst (provider.Fetch (L:=Sample.lib) portProvider portEnv
                  (fetchPath ["MYAPP_PORT"%string])))
  = Some (VNumber 8080).
Proof. repeat apply conj; vm_compute; reflexivity. Qed.

(* ===================================================================== *)
(** * Further properties: the converter *)
(* ===================================================================== *)

Section ConverterResults.
Context `{L : GoLibrary}.
Import converter.

Lemma validateDepth_error (v : Value float64) (d : Z) (e : error) :
  validateDepth v d = Some e -> e = ErrJSONTooDeep.
Proof.
  intros H. destruct (validateDepth_spec v d) as [Hok Hbad].
  destruct (Z.le_gt_cases (d + valueDepth v) MaxJSONDepth) as [Hle|Hgt].
  - rewrite (Hok Hle) in H. discriminate.
  - rewrite Hbad in H by lia. congruence.
Qed.

Lemma validateDepth_none (v : Value float64) :
  validateDepth v 0 = None -> valueDepth v <= MaxJSONDepth.
Proof.
  intros H. destruct (validateDepth_spec v 0) as [_ Hbad].
  destruct (Z.le_gt_cases (valueDepth v) MaxJSONDepth) as [Hle|Hgt]; [exact Hle|].
  rewrite Hbad in H by lia. discriminate.
Qed.

(** The outcomes of [TryJSON]. *)
Lemma TryJSON_cases (value : string) :
  (exists diag, Unmarshal value = Err diag /\ TryJSON value = Err (ErrInvalidJSON diag)) \/
  (exists v, Unmarshal value = Ok v /\ MaxJSONDepth < valueDepth v /\
             TryJSON value = Err ErrJSONTooDeep) \/
  (exists v, Unmarshal value = Ok v /\ valueDepth v <= MaxJSONDepth /\ TryJSON value = Ok v).
Proof.
  unfold TryJSON. destruct (Unmarshal value) as [v|diag]; [|left; eauto].
  right. destruct (validateDepth v 0) as [e|] eqn:Hd.
  - left. exists v. rewrite (validateDepth_error _ _ _ Hd) in *.
    split; [reflexivity|]. split; [|reflexivity].
    destruct (Z.le_gt_cases (valueDepth v) MaxJSONDepth) as [Hle|Hgt]; [|lia].
    destruct (validateDepth_spec v 0) as [Hok _]. rewrite Hok in Hd by lia. discriminate.
  - right. exists v. split; [reflexivity|]. split; [now apply validateDepth_none | reflexivity].
Qed.

Lemma ConvertValue_within (value : string) (tc js : bool) :
  Go.len value <= MaxValueSize ->
  ConvertValue value tc js =
    if String.eqb value "" then Ok (VString value, "string"%string)
    else if js && looksLikeJSON value then
      match TryJSON value with
      | Err err => Err err
      | Ok res => Ok (res, if isArray res then "array" else "object")%string
      end
    else if negb tc then Ok (VString value, "string"%string)
    else match TryNumeric value with
         | Some num => Ok (VNumber num, "number"%string)
         | None => match TryBoolean value with
                   | Some b => Ok (VBool b, "boolean"%string)
                   | None => Ok (VString value, "string"%string)
                   end
         end.
Proof.
  intros Hsz. unfold ConvertValue.
  destruct (Z.gtb_spec (Go.len value) MaxValueSize); [lia | reflexivity].
Qed.

Lemma ConvertValue_too_large_inv (value : string) (tc js : bool) :
  ConvertValue value tc js = Err ErrValueTooLarge -> MaxValueSize < Go.len value.
Proof.
  intros H. destruct (Z.le_gt_cases (Go.len value) MaxValueSize) as [Hle|Hgt];
    [|exact Hgt]. exfalso.
  rewrite ConvertValue_within in H by assumption.
  destruct (String.eqb value ""); [discriminate|].
  destruct (js && looksLikeJSON value).
  - destruct (TryJSON_cases value) as [(d & _ & HT)|[(v & _ & _ & HT)|(v & _ & _ & HT)]];
      rewrite HT in H; discriminate.
  - destruct (negb tc); [discriminate|].
    destruct (TryNumeric value); [discriminate|].
    destruct (TryBoolean value); discriminate.
Qed.

End ConverterResults.

(** X1.  [ConvertValue] fails with [ErrValueTooLarge] exactly when the
    input is longer than [MaxValueSize] bytes, whatever the flags and the
    content: an input of exactly 1048576 bytes is never refused for its
    size, one of 1048577 bytes always is. *)
Theorem X1_too_large_exactly_over_the_limit `{L : GoLibrary}
    (value : string) (tc js : bool) :
  converter.ConvertValue value tc js = Err converter.ErrValueTooLarge
  <-> 1048576 < Go.len value.
Proof.
  split; [apply ConvertValue_too_large_inv | apply ConvertValue_oversize].
Qed.

(** X2.  With JSON parsing disabled the converter never decodes: its only
    possible error is [ErrValueTooLarge], and a successful result is a
    number, a boolean or the raw input as a string, never a map, a slice or
    nil. *)
Theorem X2_no_json_without_the_flag `{L : GoLibrary} (value : string) (tc : bool) :
  (forall e, converter.ConvertValue value tc false = Err e ->
             e = converter.ErrValueTooLarge) /\
  (forall v t, converter.ConvertValue value tc false = Ok (v, t) ->
               (exists n, v = VNumber n /\ tc = true) \/
               (exists b, v = VBool b /\ tc = true) \/
               v = VString value).
Proof.
  destruct (Z.le_gt_cases (Go.len value) converter.MaxValueSize) as [Hle|Hgt].
  2:{ rewrite ConvertValue_oversize by assumption. split; intros; congruence. }
  rewrite ConvertValue_within by assumption. cbn [andb].
  destruct (String.eqb value ""); [split; intros; [discriminate | right; right; congruence]|].
  destruct tc; cbn [negb]; [|split; intros; [discriminate | right; right; congruence]].
  destruct (converter.TryNumeric value) as [n|].
  { split; intros; [discriminate|]. left. exists n. split; congruence. }
  destruct (converter.TryBoolean value) as [b|].
  { split; intros; [discriminate|]. right; left. exists b. split; congruence. }
  split; intros; [discriminate | right; right; congruence].
Qed.

(** What [ConvertValue] returns when it succeeds. *)
Lemma ConvertValue_ok `{L : GoLibrary}
    (value : string) (tc js : bool) (v : Value float64) (t : string) :
  converter.ConvertValue value tc js = Ok (v, t) ->
  Go.len value <= converter.MaxValueSize /\
  valueDepth v <= converter.MaxJSONDepth /\
  (t = "string"%string -> v = VString value) /\
  (t = "number"%string -> exists n, v = VNumber n /\ ParseFloat value = Some n) /\
  (t = "boolean"%string -> exists b, v = VBool b) /\
  (t = "array"%string <-> exists l, v = VSlice l) /\
  (t = "string" \/ t = "number" \/ t = "boolean" \/ t = "array" \/ t = "object")%string.
Proof.
  intros H.
  assert (Hsz : Go.len value <= converter.MaxValueSize).
  { destruct (Z.le_gt_cases (Go.len value) converter.MaxValueSize) as [Hle|Hgt]; [exact Hle|].
    rewrite ConvertValue_oversize in H by assumption. discriminate. }
  split; [exact Hsz|]. rewrite ConvertValue_within in H by assumption.
  assert (Hscalar : forall w tag,
             Ok (w, tag) = Ok (E:=converter.error) (v, t) ->
             (tag = "string" \/ tag = "number" \/ tag = "boolean")%string ->
             valueDepth w = 0 -> (forall l, w <> VSlice l) ->
             (tag = "string"%string -> w = VString value) ->
             (tag = "number"%string -> exists n, w = VNumber n /\ ParseFloat value = Some n) ->
             (tag = "boolean"%string -> exists b, w = VBool b) ->
             valueDepth v <= converter.MaxJSONDepth /\
             (t = "string"%string -> v = VString value) /\
             (t = "number"%string -> exists n, v = VNumber n /\ ParseFloat value = Some n) /\
             (t = "boolean"%string -> exists b, v = VBool b) /\
             (t = "array"%string <-> exists l, v = VSlice l) /\
             (t = "string" \/ t = "number" \/ t = "boolean" \/ t = "array" \/ t = "object")%string).
  { intros w tag [= <- <-] Htag Hn Hns Hs Hnum Hb.
    rewrite Hn. unfold converter.MaxJSONDepth. repeat apply conj; try lia; try assumption.
    - intros ->. destruct Htag as [?|[?|?]]; discriminate.
    - intros [l Hl]. now apply Hns in Hl.
    - tauto. }
  destruct (String.eqb value "").
  { apply (Hscalar _ _ H);
      first [reflexivity | (intros; discriminate) | (intros; eauto 6)]. }
  destruct (js && converter.looksLikeJSON value).
  - destruct (TryJSON_cases value) as [(d & _ & HT)|[(w & _ & _ & HT)|(w & _ & Hn & HT)]];
      rewrite HT in H; try discriminate.
    injection H as <- <-. split; [exact Hn|].
    destruct w; cbn [converter.isArray]; repeat apply conj; intros;
      try discriminate; eauto 6;
      match goal with
      | H : exists _, _ = VSlice _ |- _ => destruct H; discriminate
      | _ => idtac
      end.
  - destruct (negb tc).
    { apply (Hscalar _ _ H);
        first [reflexivity | (intros; discriminate) | (intros; eauto 6)]. }
    unfold converter.TryNumeric in H. destruct (ParseFloat value) as [n|] eqn:HP.
    { apply (Hscalar _ _ H);
        first [reflexivity | (intros; discriminate) | (intros; eauto 6)]. }
    destruct (converter.TryBoolean value) as [b|];
      apply (Hscalar _ _ H);
        first [reflexivity | (intros; discriminate) | (intros; eauto 6)].
Qed.

(** X3.  What a successful conversion guarantees: the input was within
    the size limit; no scalar, map or slice of the value lies inside more
    than 100 maps and slices, so the value is nested at most 101 levels
    deep (101 only when an innermost container is empty); and the type
    string tells its shape: "string" comes with the raw input itself (not
    trimmed), "number" with the number [ParseFloat] gave, "boolean" with a
    boolean, "array" exactly with a slice; there is no sixth type
    string. *)
Theorem X3_successful_conversion `{L : GoLibrary}
    (value : string) (tc js : bool) (v : Value float64) (t : string) :
  converter.ConvertValue value tc js = Ok (v, t) ->
  Go.len value <= converter.MaxValueSize /\
  valueDepth v <= converter.MaxJSONDepth /\
  levels v <= converter.MaxJSONDepth + 1 /\
  (levels v = converter.MaxJSONDepth + 1 -> valueDepth v = converter.MaxJSONDepth) /\
  (t = "string"%string -> v = VString value) /\
  (t = "number"%string -> exists n, v = VNumber n /\ ParseFloat value = Some n) /\
  (t = "boolean"%string -> exists b, v = VBool b) /\
  (t = "array"%string <-> exists l, v = VSlice l) /\
  (t = "string" \/ t = "number" \/ t = "boolean" \/ t = "array" \/ t = "object")%string.
Proof.
  intros H. destruct (ConvertValue_ok value tc js v t H) as (Hsz & Hd & Hrest).
  pose proof (levels_valueDepth v) as Hlv.
  split; [exact Hsz|]. split; [exact Hd|]. split; [lia|]. split; [lia | exact Hrest].
Qed.

(** X3, a run: an array text under the reference library. *)
Lemma X3_successful_conversion_witness :
  levels (F:=Z) (VSlice [VNumber 1; VSlice [VNumber 2]]) <= converter.MaxJSONDepth + 1 /\
  ("array"%string = "array"%string <->
   exists l, VSlice (float64:=Z) [VNumber 1; VSlice [VNumber 2]] = VSlice l).
Proof.
  destruct (X3_successful_conversion (L:=Sample.lib) "[1,[2]]" true true
              (VSlice [VNumber 1; VSlice [VNumber 2]]) "array" eq_refl)
    as (_ & _ & Hlevels & _ & _ & _ & _ & Harr & _).
  split; assumption.
Defined.

(** [toProtoValue] rebuilds the value it is given. *)
Lemma toProtoValue_rebuilds `{L : GoLibrary} (value : Value float64) :
  provider.toProtoValue value = Ok value.
Proof.
  induction value as [ | b | f | s | m IHm | l IHl ] using Value_nested_ind;
    try reflexivity.
  - cbn [provider.toProtoValue].
    match goal with
    | |- match ?loop m with _ => _ end = _ =>
      assert (Hloop : loop m = Ok m); [|now rewrite Hloop]
    end.
    induction IHm as [|[k v] m Hv _ IH]; [reflexivity|].
    cbn [snd] in Hv. cbn. rewrite Hv.
    match goal with
    | H : ?a = Ok m |- match ?b with _ => _ end = _ => change b with a; rewrite H
    end. reflexivity.
  - cbn [provider.toProtoValue].
    match goal with
    | |- match ?loop l with _ => _ end = _ =>
      assert (Hloop : loop l = Ok l); [|now rewrite Hloop]
    end.
    induction IHl as [|v l Hv _ IH]; [reflexivity|].
    cbn. rewrite Hv.
    match goal with
    | H : ?a = Ok l |- match ?b with _ => _ end = _ => change b with a; rewrite H
    end. reflexivity.
Qed.

(** X4.  [toProtoValue] never fails and changes nothing: every value made
    of nil, booleans, numbers, strings, maps and slices, however nested,
    comes back as it is (the unsupported-type error cannot occur on what
    the converter produces). *)
Theorem X4_toProtoValue_identity `{L : GoLibrary} (value : Value float64) :
  provider.toProtoValue value = Ok value.
Proof. apply toProtoValue_rebuilds. Qed.

(* ===================================================================== *)
(** * Further properties: the configuration *)
(* ===================================================================== *)

Section ConfigResults.
Import config.

Lemma checkRequired_none (vars : list string) :
  forall i, checkRequired i vars = None
            <-> Forall (fun v => Go.TrimSpace v <> EmptyString) vars.
Proof.
  induction vars as [|v vars IH]; intros i; cbn [checkRequired].
  - split; [constructor | reflexivity].
  - destruct (String.eqb_spec (Go.TrimSpace v) "") as [He|Hne].
    + split; [discriminate|]. intros H. inversion H; contradiction.
    + rewrite IH. split; [now constructor | intros H; now inversion H].
Qed.

Lemma checkRequired_some (vars : list string) :
  forall i e, checkRequired i vars = Some e ->
    exists k v, e = EmptyRequiredVariable (i + k) /\
                vars !! k = Some v /\ Go.TrimSpace v = EmptyString /\
                forall j w, (j < k)%nat -> vars !! j = Some w ->
                            Go.TrimSpace w <> EmptyString.
Proof.
  induction vars as [|v vars IH]; intros i e; cbn [checkRequired]; [discriminate|].
  destruct (String.eqb_spec (Go.TrimSpace v) "") as [He|Hne].
  - intros [= <-]. exists 0%nat, v. rewrite Nat.add_0_r.
    repeat split; [exact He|]. intros j w Hj. lia.
  - intros H. destruct (IH _ _ H) as (k & x & -> & Hk & Hx & Hbefore).
    exists (S k), x. replace (i + S k)%nat with (S i + k)%nat by lia.
    repeat split; [exact Hk | exact Hx|].
    intros [|j] w Hj Hw; cbn in Hw; [congruence|]. apply (Hbefore j); [lia | exact Hw].
Qed.

End ConfigResults.

(** X5.  [ValidateConfig] accepts a configuration exactly when its case
    rule is upper, lower or preserve, its prefix mode is prepend or
    filter_only, its separator is one byte long and no required variable
    is empty or only white space; the prefix and the two flags are never
    looked at.  When a required variable is refused, the error carries the
    index of the first blank entry. *)
Theorem X5_valid_configurations (c : config.Config) :
  (config.ValidateConfig c = None <->
   (config.CaseTransform c = "upper" \/ config.CaseTransform c = "lower"
    \/ config.CaseTransform c = "preserve")%string /\
   (config.PrefixMode c = "prepend" \/ config.PrefixMode c = "filter_only")%string /\
   Go.len (config.Separator c) = 1 /\
   Forall (fun v => Go.TrimSpace v <> EmptyString) (config.RequiredVariables c)) /\
  (forall i, config.ValidateConfig c = Some (config.EmptyRequiredVariable i) ->
     (exists v, config.RequiredVariables c !! i = Some v /\ Go.TrimSpace v = EmptyString) /\
     forall j w, (j < i)%nat -> config.RequiredVariables c !! j = Some w ->
                 Go.TrimSpace w <> EmptyString).
Proof.
  destruct (ValidateConfig_order c) as (Hcase & Hmode & Hsep & Hreq).
  rewrite <- validCaseTransforms_spec, <- validPrefixModes_spec.
  destruct (config.index config.validCaseTransforms (config.CaseTransform c)) eqn:Hc.
  2:{ rewrite (Hcase eq_refl). split; [split; [discriminate | intros (? & _); discriminate]|].
      discriminate. }
  destruct (config.index config.validPrefixModes (config.PrefixMode c)) eqn:Hm.
  2:{ rewrite (Hmode eq_refl eq_refl).
      split; [split; [discriminate | intros (_ & ? & _); discriminate]|]. discriminate. }
  destruct (Z.eq_dec (Go.len (config.Separator c)) 1) as [Hs|Hs].
  2:{ rewrite (Hsep eq_refl eq_refl Hs).
      split; [split; [discriminate | intros (_ & _ & ? & _); contradiction]|]. discriminate. }
  rewrite (Hreq eq_refl eq_refl Hs). split.
  - rewrite checkRequired_none. tauto.
  - intros i H. destruct (checkRequired_some _ _ _ H) as (k & v & [= ->] & Hk & Hv & Hbefore).
    cbn [Nat.add]. eauto.
Qed.

Section ParseConfigResults.
Context `{L : GoLibrary}.
Import config.

Ltac lookups :=
  repeat first
    [ rewrite lookup_insert_eq
    | rewrite lookup_delete_eq
    | rewrite lookup_insert_ne by (first [discriminate | congruence])
    | rewrite lookup_delete_ne by (first [discriminate | congruence]) ].

Lemma ParseConfig_other_key (m : gmap string (Value float64)) (k : string)
    (v : Value float64) :
  ~ In k ["separator"; "case_transform"; "prefix"; "prefix_mode"; "required_variables";
          "enable_type_conversion"; "enable_json_parsing"]%string ->
  ParseConfig (Some (<[k:=v]> m)) = ParseConfig (Some m).
Proof.
  intros H. cbn [In] in H.
  unfold ParseConfig, getString, getBool, getStringList.
  rewrite !lookup_insert_ne by (intros ->; tauto). reflexivity.
Qed.

Lemma ParseConfig_string_key (m : gmap string (Value float64)) (k : string)
    (v : Value float64) :
  In k ["separator"; "case_transform"; "prefix"; "prefix_mode"]%string ->
  (forall s, v <> VString s) ->
  ParseConfig (Some (<[k:=v]> m)) = ParseConfig (Some (delete k m)).
Proof.
  intros H Hv. cbn [In] in H.
  unfold ParseConfig, getString, getBool, getStringList.
  destruct H as [<-|[<-|[<-|[<-|[]]]]]; lookups;
    destruct v; first [reflexivity | now exfalso; eapply Hv].
Qed.

Lemma ParseConfig_bool_key (m : gmap string (Value float64)) (k : string)
    (v : Value float64) :
  In k ["enable_type_conversion"; "enable_json_parsing"]%string ->
  (forall b, v <> VBool b) ->
  ParseConfig (Some (<[k:=v]> m)) = ParseConfig (Some (delete k m)).
Proof.
  intros H Hv. cbn [In] in H.
  unfold ParseConfig, getString, getBool, getStringList.
  destruct H as [<-|[<-|[]]]; lookups;
    destruct v; first [reflexivity | now exfalso; eapply Hv].
Qed.

Lemma ParseConfig_list_key (m : gmap string (Value float64)) (v : Value float64) :
  (forall l, v <> VSlice l) ->
  ParseConfig (Some (<["required_variables"%string:=v]> m))
  = ParseConfig (Some (delete "required_variables"%string m)).
Proof.
  intros Hv. unfold ParseConfig, getString, getBool, getStringList. lookups.
  destruct v; first [reflexivity | now exfalso; eapply Hv].
Qed.

End ParseConfigResults.

(** X6.  [ParseConfig] reads seven keys and nothing else: a field under
    any other name (the reserved alias, type and version among them) does
    not change the parsed configuration; and a recognised key holding a
    value of the wrong type (not a string for the four text options, not a
    boolean for the two flags, not a list for required_variables) is
    treated as if the key were absent, no error being raised. *)
Theorem X6_ParseConfig_keys `{L : GoLibrary}
    (m : gmap string (Value float64)) (k : string) (v : Value float64) :
  (~ In k ["separator"; "case_transform"; "prefix"; "prefix_mode"; "required_variables";
           "enable_type_conversion"; "enable_json_parsing"]%string ->
   config.ParseConfig (Some (<[k:=v]> m)) = config.ParseConfig (Some m)) /\
  (In k ["separator"; "case_transform"; "prefix"; "prefix_mode"]%string ->
   (forall s, v <> VString s) ->
   config.ParseConfig (Some (<[k:=v]> m)) = config.ParseConfig (Some (delete k m))) /\
  (In k ["enable_type_conversion"; "enable_json_parsing"]%string ->
   (forall b, v <> VBool b) ->
   config.ParseConfig (Some (<[k:=v]> m)) = config.ParseConfig (Some (delete k m))) /\
  (k = "required_variables"%string -> (forall l, v <> VSlice l) ->
   config.ParseConfig (Some (<[k:=v]> m)) = config.ParseConfig (Some (delete k m))) /\
  (exists cfg, config.ParseConfig (Some (<[k:=v]> m)) = Ok cfg).
Proof.
  split; [apply ParseConfig_other_key|]. split; [apply ParseConfig_string_key|].
  split; [apply ParseConfig_bool_key|]. split; [intros ->; apply ParseConfig_list_key|].
  apply ParseConfig_total.
Qed.

(* ===================================================================== *)
(** * Further properties: the resolver *)
(* ===================================================================== *)

Section StringFacts.

Lemma append_inj_l (p x y : string) : p +:+ x = p +:+ y -> x = y.
Proof.
  induction p as [|a p IH]; [tauto|]. rewrite !append_cons. intros [= H]. auto.
Qed.

Lemma HasPrefix_spec (s p : string) :
  Go.HasPrefix s p = true <-> exists rest, s = p +:+ rest.
Proof.
  revert s. induction p as [|b p IH]; intros s.
  - split; [intros _; now exists s | intros _; now destruct s].
  - destruct s as [|a s]; cbn [Go.HasPrefix].
    + split; [discriminate | intros [rest H]; discriminate].
    + destruct (Ascii.eqb_spec a b) as [->|Hne].
      * rewrite IH. split; intros [rest H]; exists rest;
          rewrite append_cons in *; congruence.
      * split; [discriminate|]. intros [rest H]. rewrite append_cons in H.
        injection H as ? _. contradiction.
Qed.

(** A text without the byte [c], followed by nothing or by [c] and more,
    is cut in one way only. *)
Lemma split_unique (c : ascii) (s1 : string) :
  forall s2 t1 t2,
    hasByte c s1 = false -> hasByte c s2 = false ->
    (t1 = EmptyString \/ exists u, t1 = String c u) ->
    (t2 = EmptyString \/ exists u, t2 = String c u) ->
    s1 +:+ t1 = s2 +:+ t2 -> s1 = s2 /\ t1 = t2.
Proof.
  induction s1 as [|a s1 IH]; intros [|b s2] t1 t2 H1 H2 Ht1 Ht2 H;
    rewrite ?append_cons, ?append_nil in H.
  - tauto.
  - exfalso. subst t1. destruct Ht1 as [Ht1|[u [= Ha _]]]; [discriminate|].
    cbn in H2. subst b. rewrite Ascii.eqb_refl in H2. discriminate.
  - exfalso. subst t2. destruct Ht2 as [Ht2|[u [= Ha _]]]; [discriminate|].
    cbn in H1. subst a. rewrite Ascii.eqb_refl in H1. discriminate.
  - injection H as -> H. cbn in H1, H2.
    apply orb_false_iff in H1 as [_ H1]. apply orb_false_iff in H2 as [_ H2].
    destruct (IH _ _ _ H1 H2 Ht1 Ht2 H) as [-> ->]. tauto.
Qed.

Lemma Join_cons (e : string) (rest : list string) (sep : string) :
  Go.Join (e :: rest) sep
  = e +:+ match rest with [] => EmptyString | _ :: _ => sep +:+ Go.Join rest sep end.
Proof. destruct rest; cbn [Go.Join]; [symmetry; apply append_empty_r | reflexivity]. Qed.

(** Joining with a one-byte separator that occurs in no element loses
    nothing: the elements can be read back. *)
Lemma Join_inj (c : ascii) (l1 : list string) :
  forall l2,
    l1 <> [] -> l2 <> [] ->
    Forall (fun s => hasByte c s = false) l1 ->
    Forall (fun s => hasByte c s = false) l2 ->
    Go.Join l1 (String c EmptyString) = Go.Join l2 (String c EmptyString) -> l1 = l2.
Proof.
  induction l1 as [|e1 r1 IH]; intros [|e2 r2] Hn1 Hn2 H1 H2 H; try contradiction.
  rewrite !Join_cons in H. inversion H1 as [|? ? He1 Hr1]; inversion H2 as [|? ? He2 Hr2]; subst.
  apply split_unique with (c := c) in H; try assumption.
  - destruct H as [-> Ht]. f_equal.
    destruct r1 as [|x1 r1], r2 as [|x2 r2]; try discriminate; [reflexivity|].
    rewrite !append_cons, !append_nil in Ht. injection Ht as Ht.
    apply IH; try assumption; discriminate.
  - destruct r1; [now left | right; rewrite append_cons, append_nil; eauto].
  - destruct r2; [now left | right; rewrite append_cons, append_nil; eauto].
Qed.

End StringFacts.

Section ResolverResults.
Context `{L : GoLibrary}.
Import resolver.

Lemma hasEmptySegment_true (path : list string) :
  hasEmptySegment path = true <->
  Exists (fun segment => Go.TrimSpace segment = EmptyString) path.
Proof.
  unfold hasEmptySegment. induction path as [|s path IH]; cbn [existsb].
  - split; [discriminate | intros H; inversion H].
  - rewrite orb_true_iff, IH. destruct (String.eqb_spec (Go.TrimSpace s) "") as [He|Hne].
    + split; [intros _; now left | tauto].
    + split; [intros [?|?]; [discriminate | now right]|].
      intros H. inversion H; [contradiction | tauto].
Qed.

Lemma Transform_ok (r : Resolver) (path : list string) (name : string) :
  Transform r path = Ok name ->
  path <> [] /\ Forall (fun segment => Go.TrimSpace segment <> EmptyString) path /\
  name = ApplyPrefix (Go.Join (TransformSegments path (caseTransform r)) (separator r))
                     (prefix r) (prefixMode r).
Proof.
  unfold Transform. destruct path as [|s path]; [discriminate|]. cbn [length Nat.eqb].
  destruct (hasEmptySegment (s :: path)) eqn:He; [discriminate|]. intros [= <-].
  split; [discriminate|]. split; [|reflexivity].
  apply Forall_forall. intros x Hx Hblank.
  assert (hasEmptySegment (s :: path) = true); [|congruence].
  apply hasEmptySegment_true, Exists_exists. eauto.
Qed.

Lemma ApplyPrefix_inj (x y prefix mode : string) :
  ApplyPrefix x prefix mode = ApplyPrefix y prefix mode -> x = y.
Proof.
  unfold ApplyPrefix, PrependPrefix. destruct (String.eqb prefix ""); [tauto|].
  destruct (String.eqb mode "prepend"); [apply append_inj_l|].
  destruct (String.eqb mode "filter_only"); tauto.
Qed.

End ResolverResults.

(** X7.  Whatever the separator, case rule and prefix, [Transform] fails
    with [ErrEmptyPath] exactly on the empty path, with [ErrEmptySegment]
    exactly on a non-empty path that has a segment empty or made of white
    space only, and succeeds on every other path. *)
Theorem X7_transform_errors `{L : GoLibrary} (r : resolver.Resolver) (path : list string) :
  (resolver.Transform r path = Err resolver.ErrEmptyPath <-> path = []) /\
  (resolver.Transform r path = Err resolver.ErrEmptySegment <->
   path <> [] /\ Exists (fun segment => Go.TrimSpace segment = EmptyString) path) /\
  ((exists name, resolver.Transform r path = Ok name) <->
   path <> [] /\ Forall (fun segment => Go.TrimSpace segment <> EmptyString) path).
Proof.
  unfold resolver.Transform. destruct path as [|s path]; cbn [length Nat.eqb].
  - split; [tauto|]. split; [split; [discriminate | tauto]|].
    split; [intros [? ?]; discriminate | tauto].
  - destruct (resolver.hasEmptySegment (s :: path)) eqn:He.
    + apply hasEmptySegment_true in He.
      split; [split; discriminate|]. split; [split; [split; [discriminate | exact He] | reflexivity]|].
      split; [intros [? ?]; discriminate|]. intros [_ Hall]. exfalso.
      apply Exists_exists in He as (x & Hx & Hb). rewrite Forall_forall in Hall.
      exact (Hall x Hx Hb).
    + split; [split; discriminate|].
      assert (Hall : Forall (fun segment => Go.TrimSpace segment <> EmptyString) (s :: path)).
      { apply Forall_forall. intros x Hx Hb.
        assert (resolver.hasEmptySegment (s :: path) = true); [|congruence].
        apply hasEmptySegment_true, Exists_exists. eauto. }
      split; [split; [discriminate|]|split; [split; [discriminate | exact Hall] | eauto]].
      intros [_ Hex]. exfalso. apply Exists_exists in Hex as (x & Hx & Hb).
      rewrite Forall_forall in Hall. exact (Hall x Hx Hb).
Qed.

(** X8.  [FilterByPrefix] accepts a name exactly when the name is the
    prefix followed by something (bytes compared as they are; the empty
    prefix accepts every name).  Every name [Transform] produces in
    prepend mode is the prefix followed by the joined segments, so it
    passes the filter; in every other mode the name is the joined
    segments alone. *)
Theorem X8_prefix_policy `{L : GoLibrary} :
  (forall name prefix,
      resolver.FilterByPrefix name prefix = true <-> exists rest, name = prefix +:+ rest) /\
  (forall r path name,
      resolver.prefixMode r = "prepend"%string ->
      resolver.Transform r path = Ok name ->
      name = resolver.prefix r
             +:+ Go.Join (resolver.TransformSegments path (resolver.caseTransform r))
                         (resolver.separator r) /\
      resolver.FilterByPrefix name (resolver.prefix r) = true) /\
  (forall r path name,
      resolver.prefixMode r <> "prepend"%string ->
      resolver.Transform r path = Ok name ->
      name = Go.Join (resolver.TransformSegments path (resolver.caseTransform r))
                     (resolver.separator r)).
Proof.
  assert (Hfilter : forall name prefix,
             resolver.FilterByPrefix name prefix = true <-> exists rest, name = prefix +:+ rest).
  { intros name prefix. unfold resolver.FilterByPrefix.
    destruct (String.eqb_spec prefix "") as [->|Hne]; [|apply HasPrefix_spec].
    split; [intros _; now exists name | reflexivity]. }
  split; [exact Hfilter|]. split.
  - intros r path name Hmode H. apply Transform_ok in H as (_ & _ & ->).
    unfold resolver.ApplyPrefix, resolver.PrependPrefix. rewrite Hmode.
    destruct (String.eqb_spec (resolver.prefix r) "") as [Hp|Hp]; cbn.
    + rewrite Hp. split; [reflexivity|]. apply Hfilter. cbn. eauto.
    + split; [reflexivity|]. apply Hfilter. eauto.
  - intros r path name Hmode H. apply Transform_ok in H as (_ & _ & ->).
    unfold resolver.ApplyPrefix.
    destruct (String.eqb (resolver.prefix r) ""); [reflexivity|].
    destruct (String.eqb_spec (resolver.prefixMode r) "prepend"); [contradiction|].
    destruct (String.eqb (resolver.prefixMode r) "filter_only"); reflexivity.
Qed.

(** X9.  Under the preserve rule with a one-byte separator, two paths
    whose segments do not contain the separator byte resolve to the same
    name only when they are the same path: the name determines the path,
    whatever the prefix and its mode. *)
Theorem X9_preserve_names_determine_paths `{L : GoLibrary}
    (r : resolver.Resolver) (c : ascii) (path1 path2 : list string) (name : string) :
  resolver.caseTransform r = "preserve"%string ->
  resolver.separator r = String c EmptyString ->
  Forall (fun segment => hasByte c segment = false) path1 ->
  Forall (fun segment => hasByte c segment = false) path2 ->
  resolver.Transform r path1 = Ok name ->
  resolver.Transform r path2 = Ok name ->
  path1 = path2.
Proof.
  intros Hcase Hsep Hf1 Hf2 H1 H2.
  apply Transform_ok in H1 as (Hn1 & _ & E1). apply Transform_ok in H2 as (Hn2 & _ & E2).
  rewrite Hcase, Hsep, TransformSegments_preserve in E1, E2.
  rewrite E1 in E2. apply ApplyPrefix_inj in E2.
  now apply (Join_inj c).
Qed.

(** X9, a run with separator "_" and prefix "APP_" in prepend mode. *)
Lemma X9_preserve_names_determine_paths_witness :
  ["db"; "host"]%string = ["db"; "host"]%string.
Proof.
  apply (X9_preserve_names_determine_paths (L:=Sample.lib)
           (resolver.NewResolver "_" "preserve" "APP_" "prepend") "_"%char
           ["db"; "host"]%string ["db"; "host"]%string "APP_db_host"%string);
    first [reflexivity | (repeat constructor) | (vm_compute; reflexivity)].
Defined.

(* ===================================================================== *)
(** * Further properties: the fetcher *)
(* ===================================================================== *)

Section FetcherResults.
Import fetcher.

Lemma Fetch_bounded (f f1 : Fetcher) (env : Go.Env) (name v : string) :
  cacheBounded f -> Fetch f env name = (Ok v, f1) ->
  Go.len v <= MaxValueSize /\ cacheBounded f1.
Proof.
  intros Hb. unfold Fetch. destruct (cache f !! name) as [c|] eqn:Hc.
  - intros [= <- <-]. split; [now apply (Hb name) | exact Hb].
  - destruct (Go.LookupEnv env name) as [value|]; [|discriminate].
    destruct (Z.gtb_spec (Go.len value) MaxValueSize) as [Hgt|Hle]; [discriminate|].
    intros [= <- <-]. split; [exact Hle|]. intros k w. cbn [cache].
    destruct (decide (name = k)) as [->|Hne].
    + rewrite lookup_insert_eq. now intros [= <-].
    + rewrite lookup_insert_ne by assumption. apply Hb.
Qed.

Lemma Fetch_step_bounded (f : Fetcher) (env : Go.Env) (name : string) :
  cacheBounded f -> cacheBounded (snd (Fetch f env name)).
Proof.
  intros Hb. destruct (Fetch f env name) as [[v|e] f1] eqn:HF; cbn [snd].
  - now apply (Fetch_bounded _ _ _ _ _ Hb HF).
  - now rewrite (Fetch_err_unchanged _ _ _ _ _ HF).
Qed.

Lemma afterFetches_bounded (calls : list (Go.Env * string)) :
  forall f, cacheBounded f -> cacheBounded (afterFetches f calls).
Proof.
  induction calls as [|[env name] calls IH]; intros f Hb; [exact Hb|].
  cbn [afterFetches fold_left fst snd]. apply IH. now apply Fetch_step_bounded.
Qed.

Lemma New_bounded : cacheBounded New.
Proof. intros k v H. cbn in H. rewrite lookup_empty in H. discriminate. Qed.

End FetcherResults.

(** X10.  A failed [Fetch] is not remembered.  It leaves the fetcher as it
    was; it fails with [ErrNotFound] exactly when the variable is unset and
    with [ErrValueTooLarge] exactly when it is set to more than 1048576
    bytes; and as soon as the variable is set to a value within the limit
    (the empty string included), the next [Fetch] returns that value and
    caches it. *)
Theorem X10_failures_are_not_cached
    (f f1 : fetcher.Fetcher) (env : Go.Env) (name : string) (e : fetcher.error) :
  fetcher.Fetch f env name = (Err e, f1) ->
  f1 = f /\
  (e = fetcher.ErrNotFound <-> Go.LookupEnv env name = None) /\
  (e = fetcher.ErrValueTooLarge <->
   exists v, Go.LookupEnv env name = Some v /\ 1048576 < Go.len v) /\
  (forall env' v,
      Go.LookupEnv env' name = Some v -> Go.len v <= 1048576 ->
      fetcher.Fetch f1 env' name
      = (Ok v, {| fetcher.cache := <[name := v]> (fetcher.cache f) |})).
Proof.
  intros H. pose proof (Fetch_err_unchanged _ _ _ _ _ H) as ->.
  split; [reflexivity|]. unfold fetcher.Fetch in *.
  destruct (fetcher.cache f !! name) as [c|] eqn:Hc; [discriminate|].
  split; [|split].
  - destruct (Go.LookupEnv env name) as [value|]; [|injection H as <-; tauto].
    destruct (Go.len value >? fetcher.MaxValueSize); [|discriminate].
    injection H as <-. split; discriminate.
  - destruct (Go.LookupEnv env name) as [value|].
    + destruct (Z.gtb_spec (Go.len value) fetcher.MaxValueSize) as [Hgt|Hle]; [|discriminate].
      injection H as <-. split; [intros _; exists value; split; [reflexivity | exact Hgt]|].
      reflexivity.
    + injection H as <-. split; [discriminate | intros (v & Hv & _); discriminate].
  - intros env' v Hv Hle. rewrite Hv.
    destruct (Z.gtb_spec (Go.len v) fetcher.MaxValueSize) as [Hgt|_]; [|reflexivity].
    unfold fetcher.MaxValueSize in Hgt. lia.
Qed.

(** X10, a run: the variable is unset, then set to the empty string. *)
Lemma X10_failures_are_not_cached_witness :
  fetcher.Fetch fetcher.New {[ "EMPTY"%string := EmptyString ]} "EMPTY"
  = (Ok EmptyString, {| fetcher.cache := {[ "EMPTY"%string := EmptyString ]} |}).
Proof.
  assert (H0 : fetcher.Fetch fetcher.New ∅ "EMPTY"
               = (Err fetcher.ErrNotFound, fetcher.New)) by (vm_compute; reflexivity).
  destruct (X10_failures_are_not_cached fetcher.New fetcher.New ∅ "EMPTY"
              fetcher.ErrNotFound H0) as (_ & _ & _ & Hnext).
  rewrite (Hnext {[ "EMPTY"%string := EmptyString ]} EmptyString);
    [reflexivity | vm_compute; reflexivity | vm_compute; discriminate].
Defined.

(** X11.  No value longer than 1048576 bytes is ever cached or returned:
    starting from a new or cleared fetcher, after any series of fetches
    under any environments, every cached value and every value [Fetch]
    returns is within the limit. *)
Theorem X11_cache_holds_only_bounded_values
    (calls : list (Go.Env * string)) (f0 : fetcher.Fetcher) :
  cacheBounded (afterFetches fetcher.New calls) /\
  cacheBounded (afterFetches (fetcher.Clear f0) calls) /\
  (forall env name v f1,
      fetcher.Fetch (afterFetches fetcher.New calls) env name = (Ok v, f1) ->
      Go.len v <= 1048576) /\
  (forall env name v f1,
      fetcher.Fetch (afterFetches (fetcher.Clear f0) calls) env name = (Ok v, f1) ->
      Go.len v <= 1048576).
Proof.
  assert (H1 : cacheBounded (afterFetches fetcher.New calls))
    by (apply afterFetches_bounded, New_bounded).
  assert (H2 : cacheBounded (afterFetches (fetcher.Clear f0) calls))
    by (apply afterFetches_bounded, New_bounded).
  split; [exact H1|]. split; [exact H2|]. split.
  - intros env name v f1 HF. now apply (Fetch_bounded _ _ _ _ _ H1 HF).
  - intros env name v f1 HF. now apply (Fetch_bounded _ _ _ _ _ H2 HF).
Qed.

(* ===================================================================== *)
(** * Further properties: the provider *)
(* ===================================================================== *)

Section ProviderResults.
Context `{L : GoLibrary}.
Import provider.

Lemma firstEmptySegment_none (path : list string) :
  forall i, firstEmptySegment i path = None <->
            Forall (fun segment => Go.TrimSpace segment <> EmptyString) path.
Proof.
  induction path as [|s path IH]; intros i; cbn [firstEmptySegment].
  - split; [constructor | reflexivity].
  - destruct (String.eqb_spec (Go.TrimSpace s) "") as [He|Hne].
    + split; [discriminate|]. intros H. inversion H; contradiction.
    + rewrite IH. split; [now constructor | intros H; now inversion H].
Qed.

Lemma firstEmptySegment_first (path : list string) :
  forall i k seg,
    path !! k = Some seg -> Go.TrimSpace seg = EmptyString ->
    (forall j w, (j < k)%nat -> path !! j = Some w -> Go.TrimSpace w <> EmptyString) ->
    firstEmptySegment i path = Some (i + k)%nat.
Proof.
  induction path as [|s path IH]; intros i k seg Hk Hb Hbefore; [discriminate|].
  cbn [firstEmptySegment]. destruct k as [|k].
  - injection Hk as ->. rewrite Hb. cbn. now rewrite Nat.add_0_r.
  - destruct (String.eqb_spec (Go.TrimSpace s) "") as [He|Hne].
    + exfalso. apply (Hbefore 0%nat s); [lia | reflexivity | exact He].
    + replace (i + S k)%nat with (S i + k)%nat by lia. apply (IH _ _ seg); [exact Hk | exact Hb|].
      intros j w Hj Hw. apply (Hbefore (S j)); [lia | exact Hw].
Qed.

(** [Fetch] on a ready provider and a valid path: the name is settled,
    then the variable is fetched. *)
Lemma Fetch_ready (p : Provider) (env : Go.Env) (req : FetchRequest) :
  state p = StateReady -> Path req <> [] ->
  Forall (fun segment => Go.TrimSpace segment <> EmptyString) (Path req) ->
  Fetch p env req =
    match resolved p (Path req) with
    | None => (Panic, p)
    | Some (Err err) => (Failure (StatusError InvalidArgument (TransformFailed err)), p)
    | Some (Ok varName) => fetchVariable p env varName
    end.
Proof.
  intros Hready Hne Hall. unfold Fetch, GetState, resolved.
  rewrite (bool_decide_eq_true_2 _ Hready). cbn [negb].
  destruct (Path req) as [|s rest] eqn:Hp; [contradiction|]. cbn [length Nat.eqb].
  rewrite (proj2 (firstEmptySegment_none _ 0) Hall).
  destruct rest as [|s' rest]; [reflexivity|].
  destruct (resolver p) as [r|]; cbn [fmap option_fmap option_map]; [|reflexivity].
  destruct (resolver.Transform r (s :: s' :: rest)); reflexivity.
Qed.

(** [Fetch] changes nothing of the provider but the fetcher, which it
    replaces by the fetcher after the lookup. *)
Lemma fetchVariable_frame (p : Provider) (env : Go.Env) (varName : string) :
  alias (snd (fetchVariable p env varName)) = alias p /\
  config (snd (fetchVariable p env varName)) = config p /\
  resolver (snd (fetchVariable p env varName)) = resolver p /\
  state (snd (fetchVariable p env varName)) = state p /\
  (fetcher (snd (fetchVariable p env varName)) = fetcher p \/
   exists f, fetcher p = Some f /\
             fetcher (snd (fetchVariable p env varName))
             = Some (snd (fetcher.Fetch f env varName))).
Proof.
  unfold fetchVariable. destruct (config p) as [cfg|] eqn:Hc.
  2:{ cbn. rewrite Hc. repeat split. now left. }
  match goal with |- context [if ?c then _ else _] => destruct c end.
  { cbn. rewrite Hc. repeat split. now left. }
  destruct (fetcher p) as [f|] eqn:Hf.
  2:{ cbn. rewrite Hc, Hf. repeat split. now left. }
  destruct (fetcher.Fetch f env varName) as [res f'] eqn:HF.
  assert (Hgoal : forall o : outcome FetchResponse,
             let q := (o, {| alias := alias p; config := Some cfg; fetcher := Some f';
                             resolver := resolver p; state := state p |}) in
             alias (snd q) = alias p /\ config (snd q) = Some cfg /\
             resolver (snd q) = resolver p /\ state (snd q) = state p /\
             (fetcher (snd q) = Some f \/
              exists f0, Some f = Some f0 /\
                         fetcher (snd q) = Some (snd (fetcher.Fetch f0 env varName)))).
  { intros o. cbn. repeat split. right. exists f. now rewrite HF. }
  destruct res as [value|[|]]; try apply Hgoal.
  match goal with |- context [match (if ?c then ?a else ?b) with _ => _ end] =>
    destruct (if c then a else b) end; try apply Hgoal.
  destruct (toProtoValue _); try apply Hgoal.
  destruct (NewStruct _); apply Hgoal.
Qed.

Lemma Fetch_frame (p : Provider) (env : Go.Env) (req : FetchRequest) :
  alias (snd (Fetch p env req)) = alias p /\
  config (snd (Fetch p env req)) = config p /\
  resolver (snd (Fetch p env req)) = resolver p /\
  state (snd (Fetch p env req)) = state p /\
  (fetcher (snd (Fetch p env req)) = fetcher p \/
   exists f varName, fetcher p = Some f /\
                     fetcher (snd (Fetch p env req))
                     = Some (snd (fetcher.Fetch f env varName))).
Proof.
  assert (Hvar : forall varName,
             alias (snd (fetchVariable p env varName)) = alias p /\
             config (snd (fetchVariable p env varName)) = config p /\
             resolver (snd (fetchVariable p env varName)) = resolver p /\
             state (snd (fetchVariable p env varName)) = state p /\
             (fetcher (snd (fetchVariable p env varName)) = fetcher p \/
              exists f v, fetcher p = Some f /\
                          fetcher (snd (fetchVariable p env varName))
                          = Some (snd (fetcher.Fetch f env v)))).
  { intros varName.
    destruct (fetchVariable_frame p env varName) as (? & ? & ? & ? & [?|(f & ? & ?)]);
      repeat split; eauto. }
  assert (Hsame : forall o : outcome FetchResponse,
             alias (snd (o, p)) = alias p /\ config (snd (o, p)) = config p /\
             resolver (snd (o, p)) = resolver p /\ state (snd (o, p)) = state p /\
             (fetcher (snd (o, p)) = fetcher p \/
              exists f v, fetcher p = Some f /\
                          fetcher (snd (o, p)) = Some (snd (fetcher.Fetch f env v))))
    by (intros o; cbn; repeat split; now left).
  unfold Fetch. destruct (negb _); [apply Hsame|].
  destruct (_ =? _)%nat; [apply Hsame|].
  destruct (firstEmptySegment 0 (Path req)); [apply Hsame|].
  destruct (Path req) as [|s [|s' rest]].
  - destruct (resolver p) eqn:Hr; [|apply Hsame].
    destruct (resolver.Transform _ _); [apply Hvar | apply Hsame].
  - apply Hvar.
  - destruct (resolver p) eqn:Hr; [|apply Hsame].
    destruct (resolver.Transform _ _); [apply Hvar | apply Hsame].
Qed.

End ProviderResults.

Section ProviderInvariant.
Context `{L : GoLibrary}.
Import provider.

Lemma consistent_New : consistent New.
Proof.
  split.
  - now left.
  - apply New_wellFormed.
  - discriminate.
  - discriminate.
Qed.

Lemma consistent_Init (p : Provider) (env : Go.Env) (req : InitRequest) :
  consistent p -> consistent (snd (Init p env req)).
Proof.
  intros [Hst Hwf Hcfg Hcache].
  destruct (ParseConfig_total (Config_ req)) as [cfg HP].
  destruct (config.ValidateConfig cfg) as [err|] eqn:HV.
  { rewrite (Init_invalid p env req cfg err HP HV). cbn [snd].
    split; [now left | intros H; discriminate H | exact Hcfg | exact Hcache]. }
  destruct (missingVariables env (config.RequiredVariables cfg)) eqn:Hm.
  - rewrite (Init_success p env req cfg HP HV Hm). cbn [snd]. split.
    + right; now left.
    + intros _. cbn. repeat split; eauto. destruct (fetcher p); eauto.
    + cbn. intros c [= <-]. now split.
    + cbn. intros f. destruct (fetcher p) as [f0|] eqn:Hf; intros [= <-].
      * now apply Hcache.
      * apply New_bounded.
  - rewrite (Init_missing p env req cfg HP HV) by (rewrite Hm; discriminate). cbn [snd].
    split; [now left | intros H; discriminate H | exact Hcfg | exact Hcache].
Qed.

Lemma consistent_Shutdown (p : Provider) : consistent p -> consistent (snd (Shutdown p)).
Proof.
  intros [Hst Hwf Hcfg Hcache]. split.
  - right; now right.
  - apply Shutdown_wellFormed.
  - exact Hcfg.
  - cbn. intros f. destruct (fetcher p); intros [= <-]. apply New_bounded.
Qed.

Lemma consistent_Fetch (p : Provider) (env : Go.Env) (req : FetchRequest) :
  consistent p -> consistent (snd (Fetch p env req)).
Proof.
  intros [Hst Hwf Hcfg Hcache].
  destruct (Fetch_frame p env req) as (_ & Hc & Hr & Hs & Hf). split.
  - now rewrite Hs.
  - now apply Fetch_wellFormed.
  - rewrite Hc, Hr. exact Hcfg.
  - intros f Hf'. destruct Hf as [Hsame|(f0 & v & Hf0 & Hnew)].
    + apply Hcache. congruence.
    + rewrite Hnew in Hf'. injection Hf' as <-. apply Fetch_step_bounded. now apply Hcache.
Qed.

Lemma consistent_run (calls : list Call) :
  forall p, consistent p -> consistent (run p calls).
Proof.
  induction calls as [|c calls IH]; intros p Hp; [exact Hp|].
  cbn [run fold_left]. apply IH. destruct c as [env req|env req|]; cbn [step].
  - now apply consistent_Init.
  - now apply consistent_Fetch.
  - now apply consistent_Shutdown.
Qed.

(** On a consistent provider the conversion of a fetched value never
    fails for its size: the fetcher has the same limit. *)
Lemma fetchVariable_not_too_large (p : Provider) (env : Go.Env) (varName : string) (c : Code) :
  consistent p ->
  fst (fetchVariable p env varName)
  <> Failure (StatusError c (ConversionFailed converter.ErrValueTooLarge)).
Proof.
  intros [_ _ _ Hcache]. unfold fetchVariable.
  destruct (config p) as [cfg|]; [|discriminate].
  match goal with |- context [if ?c then _ else _] => destruct c end; [discriminate|].
  destruct (fetcher p) as [f|] eqn:Hf; [|discriminate].
  destruct (fetcher.Fetch f env varName) as [res f'] eqn:HF.
  destruct res as [value|[|]]; [|discriminate ..].
  destruct (Fetch_bounded _ _ _ _ _ (Hcache f eq_refl) HF) as [Hlen _].
  destruct (config.EnableTypeConversion cfg || config.EnableJSONParsing cfg).
  - unfold convertValue.
    destruct (converter.ConvertValue value _ _) as [[v t]|e] eqn:HC.
    + destruct (toProtoValue v); [|discriminate]. destruct (NewStruct _); discriminate.
    + cbn [fst]. intros [= _ ->]. apply ConvertValue_too_large_inv in HC.
      unfold converter.MaxValueSize, fetcher.MaxValueSize in *. lia.
  - destruct (toProtoValue _); [|discriminate]. destruct (NewStruct _); discriminate.
Qed.

End ProviderInvariant.

(** X12.  Starting from a new provider, after any series of Init, Fetch
    and Shutdown calls, under any environments: the state is
    Uninitialized, Ready or Stopped (no call ends in a transient state, so
    Health never reports STARTING between calls); a stored configuration
    has passed validation and the resolver is the one built from it; and
    the next Fetch, whatever its request, does not panic on a nil
    pointer. *)
Theorem X12_reachable_providers `{L : GoLibrary}
    (calls : list Call) (env : Go.Env) (req : provider.FetchRequest) :
  (provider.state (run provider.New calls) = provider.StateUninitialized \/
   provider.state (run provider.New calls) = provider.StateReady \/
   provider.state (run provider.New calls) = provider.StateStopped) /\
  provider.Status_ (provider.Health (run provider.New calls)) <> provider.STATUS_STARTING /\
  (forall cfg, provider.config (run provider.New calls) = Some cfg ->
     config.ValidateConfig cfg = None /\
     provider.resolver (run provider.New calls)
     = Some (resolver.NewResolver (config.Separator cfg) (config.CaseTransform cfg)
                                  (config.Prefix cfg) (config.PrefixMode cfg))) /\
  fst (provider.Fetch (run provider.New calls) env req) <> provider.Panic.
Proof.
  destruct (consistent_run calls provider.New consistent_New) as [Hst Hwf Hcfg Hcache].
  split; [exact Hst|]. split; [|split; [exact Hcfg|]].
  - unfold provider.Health, provider.GetState.
    destruct Hst as [-> | [-> | ->]]; discriminate.
  - now apply Fetch_wellFormed.
Qed.

(** X13.  The size limit is enforced once: on a provider reached from a
    new one by any series of calls, a Fetch never fails with the
    converter's [ErrValueTooLarge]; a value that passed the fetcher's limit
    is never refused by the converter's. *)
Theorem X13_conversion_never_too_large `{L : GoLibrary}
    (calls : list Call) (env : Go.Env) (req : provider.FetchRequest) (c : provider.Code) :
  fst (provider.Fetch (run provider.New calls) env req)
  <> provider.Failure
       (provider.StatusError c (provider.ConversionFailed converter.ErrValueTooLarge)).
Proof.
  pose proof (consistent_run calls provider.New consistent_New) as Hcons.
  set (p := run provider.New calls) in *. unfold provider.Fetch.
  destruct (negb _); [discriminate|]. destruct (_ =? _)%nat; [discriminate|].
  destruct (provider.firstEmptySegment 0 (provider.Path req)); [discriminate|].
  destruct (provider.Path req) as [|s [|s' rest]].
  - destruct (provider.resolver p); [|discriminate].
    destruct (resolver.Transform _ _); [now apply fetchVariable_not_too_large | discriminate].
  - now apply fetchVariable_not_too_large.
  - destruct (provider.resolver p); [|discriminate].
    destruct (resolver.Transform _ _); [now apply fetchVariable_not_too_large | discriminate].
Qed.

Section ProviderCodes.
Context `{L : GoLibrary}.
Import provider.

Lemma fetchVariable_code (p : Provider) (env : Go.Env) (varName : string) :
  failureCode (fst (fetchVariable p env varName)) <> Some FailedPrecondition.
Proof.
  unfold fetchVariable. destruct (config p) as [cfg|]; [|discriminate].
  match goal with |- context [if ?c then _ else _] => destruct c end; [discriminate|].
  destruct (fetcher p) as [f|]; [|discriminate].
  destruct (fetcher.Fetch f env varName) as [res f'].
  destruct res as [value|[|]]; [|discriminate ..].
  match goal with |- context [match (if ?c then ?a else ?b) with _ => _ end] =>
    destruct (if c then a else b) end; [|discriminate].
  destruct (toProtoValue _); [|discriminate]. destruct (NewStruct _); discriminate.
Qed.

Lemma Fetch_ready_code (p : Provider) (env : Go.Env) (req : FetchRequest) :
  state p = StateReady ->
  failureCode (fst (Fetch p env req)) <> Some FailedPrecondition.
Proof.
  intros Hready. unfold Fetch, GetState.
  rewrite (bool_decide_eq_true_2 _ Hready). cbn [negb].
  destruct (_ =? _)%nat; [discriminate|].
  destruct (firstEmptySegment 0 (Path req)); [discriminate|].
  destruct (Path req) as [|s [|s' rest]].
  - destruct (resolver p); [|discriminate].
    destruct (resolver.Transform _ _); [apply fetchVariable_code | discriminate].
  - apply fetchVariable_code.
  - destruct (resolver p); [|discriminate].
    destruct (resolver.Transform _ _); [apply fetchVariable_code | discriminate].
Qed.

Lemma Fetch_not_ready (p : Provider) (env : Go.Env) (req : FetchRequest) :
  state p <> StateReady ->
  Fetch p env req
  = (Failure (StatusError FailedPrecondition (Text "provider not initialized")), p).
Proof.
  intros H. unfold Fetch, GetState. now rewrite (bool_decide_eq_false_2 _ H).
Qed.

End ProviderCodes.

(** X14.  Health and Fetch agree: Health reports STATUS_OK exactly in the
    Ready state, and a Fetch is turned away with FailedPrecondition
    exactly when Health does not report STATUS_OK; every other failure of
    a Fetch carries another code. *)
Theorem X14_health_agrees_with_fetch `{L : GoLibrary}
    (p : provider.Provider) (env : Go.Env) (req : provider.FetchRequest) :
  (provider.Status_ (provider.Health p) = provider.STATUS_OK
   <-> provider.state p = provider.StateReady) /\
  (failureCode (fst (provider.Fetch p env req)) = Some provider.FailedPrecondition
   <-> provider.Status_ (provider.Health p) <> provider.STATUS_OK).
Proof.
  assert (Hh : provider.Status_ (provider.Health p) = provider.STATUS_OK
               <-> provider.state p = provider.StateReady).
  { unfold provider.Health, provider.GetState.
    destruct (provider.state p); cbn; split; congruence. }
  split; [exact Hh|]. rewrite Hh.
  destruct (decide (provider.state p = provider.StateReady)) as [Hr|Hn].
  - split; [|contradiction]. intros H. now apply Fetch_ready_code in H.
  - rewrite (Fetch_not_ready p env req Hn). cbn. tauto.
Qed.

(** X15.  [Init] never replaces or clears a fetcher that exists: whether
    it succeeds or fails, the cache is the one from before, so a value
    cached before a re-initialization is still returned after it, whatever
    the environment has become. *)
Theorem X15_init_keeps_the_cache `{L : GoLibrary}
    (p : provider.Provider) (f : fetcher.Fetcher) (env : Go.Env)
    (req : provider.InitRequest) :
  provider.fetcher p = Some f ->
  provider.fetcher (snd (provider.Init p env req)) = Some f /\
  (forall name raw env',
      fetcher.cache f !! name = Some raw ->
      (fun f' => fst (fetcher.Fetch f' env' name))
        <$> provider.fetcher (snd (provider.Init p env req))
      = Some (Ok raw)).
Proof.
  intros Hf.
  assert (H : provider.fetcher (snd (provider.Init p env req)) = Some f).
  { destruct (ParseConfig_total (provider.Config_ req)) as [cfg HP].
    destruct (config.ValidateConfig cfg) as [err|] eqn:HV.
    { now rewrite (Init_invalid p env req cfg err HP HV). }
    destruct (provider.missingVariables env (config.RequiredVariables cfg)) eqn:Hm.
    - rewrite (Init_success p env req cfg HP HV Hm). cbn. now rewrite Hf.
    - now rewrite (Init_missing p env req cfg HP HV) by (rewrite Hm; discriminate). }
  split; [exact H|]. intros name raw env' Hc. rewrite H. cbn.
  now rewrite (Fetch_cached f env' name raw Hc).
Qed.

(** X15, a run through the handlers: HOME is fetched, the provider is
    initialized again while HOME has changed, and the old value is still
    served. *)
Lemma X15_init_keeps_the_cache_witness :
  fetched (fst (provider.Fetch (L:=Sample.lib)
                  (snd (provider.Init (L:=Sample.lib)
                          (snd (provider.Fetch (L:=Sample.lib) readyProvider
                                  {[ "HOME"%string := "/root"%string ]}
                                  (fetchPath ["HOME"%string])))
                          {[ "HOME"%string := "/tmp"%string ]} (initWith [])))
                  {[ "HOME"%string := "/tmp"%string ]} (fetchPath ["HOME"%string])))
  = Some (VString "/root") /\
  provider.fetcher
    (snd (provider.Init (L:=Sample.lib)
            (snd (provider.Fetch (L:=Sample.lib) readyProvider
                    {[ "HOME"%string := "/root"%string ]} (fetchPath ["HOME"%string])))
            {[ "HOME"%string := "/tmp"%string ]} (initWith [])))
  = Some {| fetcher.cache := {[ "HOME"%string := "/root"%string ]} |}.
Proof.
  split; [vm_compute; reflexivity|].
  refine (proj1 (X15_init_keeps_the_cache (L:=Sample.lib) _ _ _ _ _)).
  vm_compute. reflexivity.
Defined.

(** X16.  [Shutdown] succeeds from every state and ends in Stopped with
    an empty cache, the alias, configuration and resolver being kept; a
    second Shutdown changes nothing more; afterwards every Fetch fails
    with FailedPrecondition and Health reports STATUS_DEGRADED; and an
    Init after it starts from an empty cache. *)
Theorem X16_shutdown `{L : GoLibrary} (p : provider.Provider) :
  fst (provider.Shutdown p) = provider.Response provider.MkShutdownResponse /\
  provider.state (snd (provider.Shutdown p)) = provider.StateStopped /\
  (forall f, provider.fetcher (snd (provider.Shutdown p)) = Some f ->
             fetcher.cache f = ∅) /\
  (provider.alias (snd (provider.Shutdown p)) = provider.alias p /\
   provider.config (snd (provider.Shutdown p)) = provider.config p /\
   provider.resolver (snd (provider.Shutdown p)) = provider.resolver p) /\
  provider.Shutdown (snd (provider.Shutdown p)) = provider.Shutdown p /\
  (forall env req,
      provider.Fetch (snd (provider.Shutdown p)) env req
      = (provider.Failure (provider.StatusError provider.FailedPrecondition
                             (provider.Text "provider not initialized")),
         snd (provider.Shutdown p))) /\
  provider.Status_ (provider.Health (snd (provider.Shutdown p)))
  = provider.STATUS_DEGRADED /\
  (forall env req f,
      provider.fetcher (snd (provider.Init (snd (provider.Shutdown p)) env req)) = Some f ->
      fetcher.cache f = ∅).
Proof.
  split; [reflexivity|]. split; [reflexivity|]. split.
  { cbn. intros f. destruct (provider.fetcher p); now intros [= <-]. }
  split; [repeat split|]. split.
  { unfold provider.Shutdown. cbn. destruct (provider.fetcher p); reflexivity. }
  split. { intros env req. now apply Fetch_not_ready. }
  split; [reflexivity|].
  intros env req f.
  destruct (ParseConfig_total (provider.Config_ req)) as [cfg HP].
  destruct (config.ValidateConfig cfg) as [err|] eqn:HV.
  { rewrite (Init_invalid _ env req cfg err HP HV). cbn.
    destruct (provider.fetcher p); now intros [= <-]. }
  destruct (provider.missingVariables env (config.RequiredVariables cfg)) eqn:Hm.
  - rewrite (Init_success _ env req cfg HP HV Hm). cbn.
    destruct (provider.fetcher p); now intros [= <-].
  - rewrite (Init_missing _ env req cfg HP HV) by (rewrite Hm; discriminate). cbn.
    destruct (provider.fetcher p); now intros [= <-].
Qed.

(** X17.  On a ready provider the path is checked before anything is
    looked up: the empty path fails with InvalidArgument "path cannot be
    empty", and a path with a segment that is empty or only white space
    fails with InvalidArgument naming the index of the first such
    segment; in both cases the environment plays no part and the provider
    is left as it was. *)
Theorem X17_path_validation `{L : GoLibrary}
    (p : provider.Provider) (env : Go.Env) (req : provider.FetchRequest) :
  provider.state p = provider.StateReady ->
  (provider.Path req = [] ->
   provider.Fetch p env req
   = (provider.Failure (provider.StatusError provider.InvalidArgument
                          (provider.Text "path cannot be empty")), p)) /\
  (forall i segment,
      provider.Path req !! i = Some segment ->
      Go.TrimSpace segment = EmptyString ->
      (forall j w, (j < i)%nat -> provider.Path req !! j = Some w ->
                   Go.TrimSpace w <> EmptyString) ->
      provider.Fetch p env req
      = (provider.Failure
           (provider.StatusError provider.InvalidArgument
              (provider.Text ("path[" +:+ pretty i +:+ "] cannot be empty string"))), p)).
Proof.
  intros Hready. unfold provider.Fetch, provider.GetState.
  rewrite (bool_decide_eq_true_2 _ Hready). cbn [negb]. split.
  - intros ->. reflexivity.
  - intros i segment Hi Hb Hbefore.
    destruct (provider.Path req) as [|s rest] eqn:Hp; [discriminate|]. cbn [length Nat.eqb].
    now rewrite (firstEmptySegment_first (s :: rest) 0 i segment Hi Hb Hbefore).
Qed.

(** X17, a run: the second segment of the path is blank. *)
Lemma X17_path_validation_witness :
  provider.Fetch (L:=Sample.lib) readyProvider ∅ (fetchPath ["db"; " "; ""]%string)
  = (provider.Failure (provider.StatusError provider.InvalidArgument
                         (provider.Text "path[1] cannot be empty string")), readyProvider).
Proof.
  assert (Hready : provider.state readyProvider = provider.StateReady)
    by (vm_compute; reflexivity).
  destruct (X17_path_validation (L:=Sample.lib) readyProvider ∅
              (fetchPath ["db"; " "; ""]%string) Hready) as [_ Hblank].
  rewrite (Hblank 1%nat " "%string); [reflexivity | reflexivity | vm_compute; reflexivity|].
  intros [|j] w Hj; [intros [= <-]; vm_compute; discriminate | lia].
Defined.

(* ===================================================================== *)
(** * Further properties: what a Fetch serves *)
(* ===================================================================== *)

Section ProviderServing.
Context `{L : GoLibrary}.
Import provider.

(** In filter_only mode a name outside the prefix is not looked up. *)
Lemma fetchVariable_blocked (p : Provider) (env : Go.Env) (cfg : config.Config)
    (varName : string) :
  config p = Some cfg ->
  config.PrefixMode cfg = "filter_only"%string -> config.Prefix cfg <> EmptyString ->
  resolver.FilterByPrefix varName (config.Prefix cfg) = false ->
  fetchVariable p env varName
  = (Failure (StatusError NotFound
                (Text ("environment variable not found: " +:+ varName))), p).
Proof.
  intros Hc Hm Hp Hf. unfold fetchVariable. rewrite Hc, Hm, Hf.
  destruct (String.eqb_spec (config.Prefix cfg) ""); [contradiction | reflexivity].
Qed.

(** The outcome of the second half of [Fetch] is a function of the stored
    configuration and of what the fetcher returns. *)
Lemma fetchVariable_ext (p q : Provider) (env env' : Go.Env) (varName : string)
    (f g : fetcher.Fetcher) :
  config q = config p -> fetcher p = Some f -> fetcher q = Some g ->
  fst (fetcher.Fetch g env' varName) = fst (fetcher.Fetch f env varName) ->
  fst (fetchVariable q env' varName) = fst (fetchVariable p env varName).
Proof.
  intros Hc Hf Hg Hres. unfold fetchVariable. rewrite Hc, Hf, Hg.
  destruct (config p) as [cfg|]; [|reflexivity].
  match goal with |- context [if ?c then _ else _] => destruct c end; [reflexivity|].
  destruct (fetcher.Fetch f env varName) as [res f'].
  destruct (fetcher.Fetch g env' varName) as [res' g'].
  cbn [fst] in Hres. subst res'.
  destruct res as [value|[|]]; [|reflexivity ..].
  match goal with |- context [match (if ?c then ?a else ?b) with _ => _ end] =>
    destruct (if c then a else b) end; [|reflexivity].
  destruct (toProtoValue _); [|reflexivity]. destruct (NewStruct _); reflexivity.
Qed.

(** A served outcome comes from a value the fetcher returned. *)
Lemma fetchVariable_served_inv (p : Provider) (env : Go.Env) (varName : string) :
  served (fst (fetchVariable p env varName)) ->
  exists f value,
    fetcher p = Some f /\ fst (fetcher.Fetch f env varName) = Ok value /\
    snd (fetchVariable p env varName)
    = {| alias := alias p; config := config p;
         fetcher := Some (snd (fetcher.Fetch f env varName));
         resolver := resolver p; state := state p |}.
Proof.
  unfold fetchVariable. destruct (config p) as [cfg|] eqn:Hc; [|intros H; destruct H].
  match goal with |- context [if ?c then _ else _] => destruct c end;
    [intros H; destruct H|].
  destruct (fetcher p) as [f|] eqn:Hf; [|intros H; destruct H].
  destruct (fetcher.Fetch f env varName) as [res f'] eqn:HF.
  destruct res as [value|[|]]; [|intros H; destruct H ..].
  intros _. exists f, value. rewrite HF. split; [reflexivity|]. split; [reflexivity|].
  match goal with |- context [match (if ?c then ?a else ?b) with _ => _ end] =>
    destruct (if c then a else b) end; [|reflexivity].
  destruct (toProtoValue _); [|reflexivity]. destruct (NewStruct _); reflexivity.
Qed.

Lemma fetchVariable_stable (p : Provider) (env env' : Go.Env) (varName : string) :
  served (fst (fetchVariable p env varName)) ->
  fetchVariable (snd (fetchVariable p env varName)) env' varName
  = fetchVariable p env varName.
Proof.
  intros Hs. destruct (fetchVariable_served_inv p env varName Hs) as (f & value & Hf & Hv & Hq).
  destruct (fetcher.Fetch f env varName) as [res f1] eqn:HF. cbn [fst snd] in Hv, Hq.
  subst res. pose proof (Fetch_ok_cached f f1 env varName value HF) as Hcached.
  pose proof (Fetch_cached f1 env' varName value Hcached) as HF1.
  set (q := snd (fetchVariable p env varName)) in *.
  assert (Hfst : fst (fetchVariable q env' varName) = fst (fetchVariable p env varName)).
  { apply (fetchVariable_ext p q env env' varName f f1).
    - now rewrite Hq.
    - exact Hf.
    - now rewrite Hq.
    - now rewrite HF1, HF. }
  assert (Hs' : served (fst (fetchVariable q env' varName))) by (rewrite Hfst; exact Hs).
  destruct (fetchVariable_served_inv q env' varName Hs') as (g & value' & Hg & _ & Hq').
  assert (g = f1) as -> by (rewrite Hq in Hg; cbn in Hg; congruence).
  rewrite HF1 in Hq'. cbn [snd] in Hq'.
  rewrite (surjective_pairing (fetchVariable q env' varName)), Hfst, Hq'.
  rewrite (surjective_pairing (fetchVariable p env varName)). fold q.
  f_equal. rewrite Hq. reflexivity.
Qed.

(** A served request got past the checks of the state and of the path,
    which read the state and the resolver only. *)
Lemma Fetch_served_inv (p : Provider) (env : Go.Env) (req : FetchRequest) :
  served (fst (Fetch p env req)) ->
  exists varName,
    forall q env', state q = state p -> resolver q = resolver p ->
                   Fetch q env' req = fetchVariable q env' varName.
Proof.
  unfold Fetch, GetState.
  destruct (Path req) as [|s [|s' rest]].
  - destruct (negb _); intros H; destruct H.
  - destruct (bool_decide (state p = StateReady)) eqn:Hs; cbn [negb];
      [|intros H; destruct H].
    cbn [length Nat.eqb].
    destruct (firstEmptySegment 0 [s]) eqn:He; [intros H; destruct H|].
    intros _. exists s. intros q env' Hq _. now rewrite Hq, Hs.
  - destruct (bool_decide (state p = StateReady)) eqn:Hs; cbn [negb];
      [|intros H; destruct H].
    cbn [length Nat.eqb].
    destruct (firstEmptySegment 0 (s :: s' :: rest)) eqn:He; [intros H; destruct H|].
    destruct (resolver p) as [r|] eqn:Hr; [|intros H; destruct H].
    destruct (resolver.Transform r (s :: s' :: rest)) as [varName|err] eqn:HT;
      [|intros H; destruct H].
    intros _. exists varName. intros q env' Hq Hrq. now rewrite Hq, Hs, Hrq, HT.
Qed.

End ProviderServing.

(** X18.  In filter_only mode with a non-empty prefix, a request whose
    variable name (the segment itself for a one-segment path, the
    resolver's result otherwise) does not start with the prefix fails with
    NotFound, whatever the environment and the cache hold, and leaves the
    provider, its cache included, as it was. *)
Theorem X18_filter_only_hides_other_names `{L : GoLibrary}
    (p : provider.Provider) (cfg : config.Config) (env : Go.Env)
    (req : provider.FetchRequest) (varName : string) :
  provider.state p = provider.StateReady ->
  provider.config p = Some cfg ->
  config.PrefixMode cfg = "filter_only"%string ->
  config.Prefix cfg <> EmptyString ->
  Forall (fun segment => Go.TrimSpace segment <> EmptyString) (provider.Path req) ->
  resolved p (provider.Path req) = Some (Ok varName) ->
  Go.HasPrefix varName (config.Prefix cfg) = false ->
  provider.Fetch p env req
  = (provider.Failure (provider.StatusError provider.NotFound
                         (provider.Text ("environment variable not found: " +:+ varName))),
     p).
Proof.
  intros Hready Hc Hm Hp Hall Hres Hpre.
  assert (Hne : provider.Path req <> []).
  { intros E. rewrite E in Hres. cbn in Hres. destruct (provider.resolver p) as [r|];
      cbn in Hres; [|discriminate].
    injection Hres as Hres. unfold resolver.Transform in Hres. cbn in Hres. discriminate. }
  rewrite (Fetch_ready p env req Hready Hne Hall), Hres.
  apply (fetchVariable_blocked p env cfg varName Hc Hm Hp).
  unfold resolver.FilterByPrefix.
  destruct (String.eqb_spec (config.Prefix cfg) ""); [contradiction | exact Hpre].
Qed.

(** X18, a run: the prefix is APP_ in filter_only mode; HOME is set in
    the environment and is not served. *)
Lemma X18_filter_only_hides_other_names_witness :
  failure (fst (provider.Fetch (L:=Sample.lib)
                  (snd (provider.Init (L:=Sample.lib) provider.New ∅
                          (initWith [("prefix"%string, VString "APP_");
                                     ("prefix_mode"%string, VString "filter_only")])))
                  {[ "HOME"%string := "/root"%string ]} (fetchPath ["HOME"%string])))
  = Some (provider.StatusError provider.NotFound
            (provider.Text "environment variable not found: HOME")).
Proof.
  rewrite (X18_filter_only_hides_other_names (L:=Sample.lib) _
             {| config.Separator := "_"; config.CaseTransform := "upper";
                config.Prefix := "APP_"; config.PrefixMode := "filter_only";
                config.RequiredVariables := []; config.EnableTypeConversion := true;
                config.EnableJSONParsing := true |} _ _ "HOME").
  - reflexivity.
  - vm_compute. reflexivity.
  - vm_compute. reflexivity.
  - reflexivity.
  - discriminate.
  - apply List.Forall_cons; [vm_compute; discriminate | apply List.Forall_nil].
  - reflexivity.
  - vm_compute. reflexivity.
Defined.

(** X19.  A request that was served, with an answer or with a failure of
    the conversion of the value found, is served in the same way when it
    is repeated: whatever the environment has become, the second Fetch
    gives the same outcome and leaves the provider as the first one left
    it, so a value that fails to convert keeps failing until Shutdown
    clears the cache. *)
Theorem X19_served_requests_repeat `{L : GoLibrary}
    (p : provider.Provider) (env env' : Go.Env) (req : provider.FetchRequest) :
  served (fst (provider.Fetch p env req)) ->
  provider.Fetch (snd (provider.Fetch p env req)) env' req = provider.Fetch p env req.
Proof.
  intros Hs. destruct (Fetch_served_inv p env req Hs) as (varName & Hvar).
  pose proof (Hvar p env eq_refl eq_refl) as Hp.
  rewrite Hp in Hs |- *.
  destruct (fetchVariable_frame p env varName) as (_ & _ & Hr & Hst & _).
  rewrite (Hvar _ env' Hst Hr).
  now apply fetchVariable_stable.
Qed.

(** X19, a run: PORT is served as the number 8080 and again as 8080 after
    the variable has been unset. *)
Lemma X19_served_requests_repeat_witness :
  fetched (fst (provider.Fetch (L:=Sample.lib)
                  (snd (provider.Fetch (L:=Sample.lib) readyProvider
                          {[ "PORT"%string := "8080"%string ]} (fetchPath ["PORT"%string])))
                  ∅ (fetchPath ["PORT"%string])))
  = Some (VNumber 8080).
Proof.
  rewrite (X19_served_requests_repeat (L:=Sample.lib) readyProvider
             {[ "PORT"%string := "8080"%string ]} ∅ (fetchPath ["PORT"%string])).
  - vm_compute. reflexivity.
  - vm_compute. exact I.
Defined.

Section ProviderLookup.
Context `{L : GoLibrary}.
Import provider.

(** [Fetch] of one segment whose name passes the prefix filter and is not
    in the cache, for a variable that is set within the size limit. *)
Lemma Fetch_lookup (p : Provider) (cfg : config.Config) (f : fetcher.Fetcher)
    (env : Go.Env) (name value : string) :
  state p = StateReady -> config p = Some cfg -> fetcher p = Some f ->
  Go.TrimSpace name <> EmptyString ->
  (config.PrefixMode cfg = "filter_only"%string ->
   resolver.FilterByPrefix name (config.Prefix cfg) = true) ->
  fetcher.cache f !! name = None ->
  env !! name = Some value -> Go.len value <= fetcher.MaxValueSize ->
  fst (Fetch p env {| Path := [name] |})
  = match (if config.EnableTypeConversion cfg || config.EnableJSONParsing cfg
           then convertValue cfg value else Ok (VString value)) with
    | Err err => Failure (StatusError InvalidArgument (ConversionFailed err))
    | Ok convertedValue =>
      match NewStruct convertedValue with
      | None => Failure (StatusError Internal StructCreationFailed)
      | Some valueStruct => Response {| Value_ := valueStruct |}
      end
    end.
Proof.
  intros Hready Hc Hf Hname Hfilter Hmiss Henv Hlen.
  rewrite (Fetch_single_segment p env name Hready Hname).
  unfold fetchVariable. rewrite Hc.
  assert (Hpass : String.eqb (config.PrefixMode cfg) "filter_only"
                  && negb (String.eqb (config.Prefix cfg) "")
                  && negb (resolver.FilterByPrefix name (config.Prefix cfg)) = false).
  { destruct (String.eqb_spec (config.PrefixMode cfg) "filter_only") as [E|_]; [|reflexivity].
    rewrite (Hfilter E). apply andb_false_r. }
  rewrite Hpass, Hf. unfold fetcher.Fetch, Go.LookupEnv. rewrite Hmiss, Henv.
  destruct (Z.gtb_spec (Go.len value) fetcher.MaxValueSize) as [Hgt|_]; [lia|].
  match goal with |- context [match (if ?c then ?a else ?b) with _ => _ end] =>
    destruct (if c then a else b) as [convertedValue|err] end; [|reflexivity].
  rewrite toProtoValue_rebuilds. destruct (NewStruct convertedValue); reflexivity.
Qed.

Lemma Fetch_unset (p : Provider) (cfg : config.Config) (f : fetcher.Fetcher)
    (env : Go.Env) (name : string) :
  state p = StateReady -> config p = Some cfg -> fetcher p = Some f ->
  Go.TrimSpace name <> EmptyString ->
  fetcher.cache f !! name = None -> env !! name = None ->
  Fetch p env {| Path := [name] |}
  = (Failure (StatusError NotFound
                (Text ("environment variable not found: " +:+ name))), p).
Proof.
  intros Hready Hc Hf Hname Hmiss Henv.
  rewrite (Fetch_single_segment p env name Hready Hname).
  unfold fetchVariable. rewrite Hc.
  match goal with |- context [if ?c then _ else _] => destruct c end; [reflexivity|].
  rewrite Hf. unfold fetcher.Fetch, Go.LookupEnv. rewrite Hmiss, Henv.
  f_equal. destruct p; cbn in *. now subst.
Qed.

End ProviderLookup.

(** X20.  A variable that is set to the empty string is not a missing
    variable: on a ready provider, for a one-segment path whose name is
    not cached and is not hidden by the prefix filter, Fetch fails with
    NotFound when the variable is unset and leaves the provider as it
    was, and answers with the empty string, whatever the two conversion
    flags say, when the variable is set to the empty string. *)
Theorem X20_empty_is_not_unset `{L : GoLibrary}
    (p : provider.Provider) (cfg : config.Config) (f : fetcher.Fetcher)
    (env : Go.Env) (name : string) :
  provider.state p = provider.StateReady ->
  provider.config p = Some cfg -> provider.fetcher p = Some f ->
  Go.TrimSpace name <> EmptyString ->
  (config.PrefixMode cfg = "filter_only"%string ->
   resolver.FilterByPrefix name (config.Prefix cfg) = true) ->
  fetcher.cache f !! name = None ->
  (env !! name = None ->
   provider.Fetch p env (fetchPath [name])
   = (provider.Failure (provider.StatusError provider.NotFound
                          (provider.Text ("environment variable not found: " +:+ name))),
      p)) /\
  (env !! name = Some EmptyString ->
   fetched (fst (provider.Fetch p env (fetchPath [name]))) = Some (VString "")).
Proof.
  intros Hready Hc Hf Hname Hfilter Hmiss. split; intros Henv.
  - now apply (Fetch_unset p cfg f).
  - unfold fetchPath.
    rewrite (Fetch_lookup p cfg f env name "" Hready Hc Hf Hname Hfilter Hmiss Henv)
      by (vm_compute; discriminate).
    unfold provider.convertValue. rewrite ConvertValue_empty.
    destruct (_ || _); cbn; apply lookup_singleton_eq.
Qed.

(** X20, a run: EMPTY is set to the empty string. *)
Lemma X20_empty_is_not_unset_witness :
  fetched (fst (provider.Fetch (L:=Sample.lib) readyProvider
                  {[ "EMPTY"%string := EmptyString ]} (fetchPath ["EMPTY"%string])))
  = Some (VString "").
Proof.
  refine (proj2 (X20_empty_is_not_unset (L:=Sample.lib) readyProvider config.DefaultConfig
                   fetcher.New {[ "EMPTY"%string := EmptyString ]} "EMPTY"
                   _ _ _ _ _ _) _).
  - vm_compute. reflexivity.
  - vm_compute. reflexivity.
  - vm_compute. reflexivity.
  - vm_compute. discriminate.
  - intros H. vm_compute in H. discriminate H.
  - reflexivity.
  - reflexivity.
Defined.

(** X21.  With both conversion flags off the raw value is served as it
    is: on a ready provider, for a one-segment path whose name is not
    cached and not hidden by the prefix filter and whose variable is set
    within the size limit, Fetch answers with the value as a string when
    it is valid UTF-8 (so 8080 stays the string 8080), and fails with
    Internal, at the creation of the response, when it is not. *)
Theorem X21_raw_values_without_conversion `{L : GoLibrary}
    (p : provider.Provider) (cfg : config.Config) (f : fetcher.Fetcher)
    (env : Go.Env) (name value : string) :
  provider.state p = provider.StateReady ->
  provider.config p = Some cfg -> provider.fetcher p = Some f ->
  config.EnableTypeConversion cfg = false -> config.EnableJSONParsing cfg = false ->
  Go.TrimSpace name <> EmptyString ->
  (config.PrefixMode cfg = "filter_only"%string ->
   resolver.FilterByPrefix name (config.Prefix cfg) = true) ->
  fetcher.cache f !! name = None ->
  env !! name = Some value -> Go.len value <= fetcher.MaxValueSize ->
  (Go.ValidString value = true ->
   fetched (fst (provider.Fetch p env (fetchPath [name]))) = Some (VString value)) /\
  (Go.ValidString value = false ->
   fst (provider.Fetch p env (fetchPath [name]))
   = provider.Failure (provider.StatusError provider.Internal
                         provider.StructCreationFailed)).
Proof.
  intros Hready Hc Hf Htc Hjs Hname Hfilter Hmiss Henv Hlen. unfold fetchPath.
  rewrite (Fetch_lookup p cfg f env name value Hready Hc Hf Hname Hfilter Hmiss Henv Hlen).
  rewrite Htc, Hjs. cbn [orb]. unfold provider.NewStruct. cbn [provider.validProto].
  split; intros ->; [cbn; apply lookup_singleton_eq | reflexivity].
Qed.

(** X21, two runs on a provider initialized with both flags off: PORT is
    8080 and comes back as a string; RAW is the single byte FF, which is
    not UTF-8, and the call fails with Internal. *)
Lemma X21_raw_values_without_conversion_witness :
  fetched (fst (provider.Fetch (L:=Sample.lib)
                  (snd (provider.Init (L:=Sample.lib) provider.New ∅
                          (initWith [("enable_type_conversion"%string, VBool false);
                                     ("enable_json_parsing"%string, VBool false)])))
                  {[ "PORT"%string := "8080"%string ]} (fetchPath ["PORT"%string])))
  = Some (VString "8080") /\
  failure (fst (provider.Fetch (L:=Sample.lib)
                  (snd (provider.Init (L:=Sample.lib) provider.New ∅
                          (initWith [("enable_type_conversion"%string, VBool false);
                                     ("enable_json_parsing"%string, VBool false)])))
                  {[ "RAW"%string := String "255"%char EmptyString ]}
                  (fetchPath ["RAW"%string])))
  = Some (provider.StatusError provider.Internal provider.StructCreationFailed).
Proof.
  set (cfg := {| config.Separator := "_"; config.CaseTransform := "upper";
                 config.Prefix := ""; config.PrefixMode := "prepend";
                 config.RequiredVariables := []; config.EnableTypeConversion := false;
                 config.EnableJSONParsing := false |}).
  split.
  - refine (proj1 (X21_raw_values_without_conversion (L:=Sample.lib) _ cfg fetcher.New
                     {[ "PORT"%string := "8080"%string ]} "PORT" "8080"
                     _ _ _ _ _ _ _ _ _ _) _).
    + vm_compute. reflexivity.
    + vm_compute. reflexivity.
    + vm_compute. reflexivity.
    + reflexivity.
    + reflexivity.
    + vm_compute. discriminate.
    + intros H. vm_compute in H. discriminate H.
    + reflexivity.
    + reflexivity.
    + vm_compute. discriminate.
    + vm_compute. reflexivity.
  - refine (f_equal failure
              (proj2 (X21_raw_values_without_conversion (L:=Sample.lib) _ cfg fetcher.New
                        {[ "RAW"%string := String "255"%char EmptyString ]} "RAW"
                        (String "255"%char EmptyString)
                        _ _ _ _ _ _ _ _ _ _) _)).
    + vm_compute. reflexivity.
    + vm_compute. reflexivity.
    + vm_compute. reflexivity.
    + reflexivity.
    + reflexivity.
    + vm_compute. discriminate.
    + intros H. vm_compute in H. discriminate H.
    + reflexivity.
    + reflexivity.
    + vm_compute. discriminate.
    + vm_compute. reflexivity.
Defined.

(** X22.  Info reports the alias of the last successful Init: a
    successful Init replaces the alias by the one of its request, a failed
    Init, a Fetch and a Shutdown leave it as it was, and a new provider
    has the empty alias; the type is always "environment-variables" and
    the version the one the binary was built with. *)
Theorem X22_info_reports_the_last_alias `{L : GoLibrary}
    (Version : string) (p : provider.Provider) (c : Call) :
  provider.Alias_ (provider.Info Version provider.New) = EmptyString /\
  provider.Alias_ (provider.Info Version (step p c))
  = match c with
    | CallInit env req =>
      match fst (provider.Init p env req) with
      | provider.Response _ => provider.Alias req
      | _ => provider.Alias_ (provider.Info Version p)
      end
    | _ => provider.Alias_ (provider.Info Version p)
    end /\
  provider.Type_ (provider.Info Version (step p c)) = "environment-variables"%string /\
  provider.Version_ (provider.Info Version (step p c)) = Version.
Proof.
  split; [reflexivity|]. split; [|split; reflexivity].
  destruct c as [env req|env req|]; cbn [step provider.Info provider.Alias_].
  - destruct (ParseConfig_total (provider.Config_ req)) as [cfg HP].
    destruct (config.ValidateConfig cfg) as [err|] eqn:HV.
    { now rewrite (Init_invalid p env req cfg err HP HV). }
    destruct (provider.missingVariables env (config.RequiredVariables cfg)) eqn:Hm.
    + now rewrite (Init_success p env req cfg HP HV Hm).
    + now rewrite (Init_missing p env req cfg HP HV) by (rewrite Hm; discriminate).
  - apply (Fetch_frame p env req).
  - reflexivity.
Qed.

(* ===================================================================== *)
(** * Further properties: the logger *)
(* ===================================================================== *)

Section LoggerResults.

Lemma log_level (l : logger.Logger) (timestamp : string) (lvl : logger.Level)
    (message : string) :
  logger.level (logger.log l timestamp lvl message) = logger.level l.
Proof. unfold logger.log. now destruct (lvl >? logger.level l). Qed.

Lemma logAll_level (calls : list (string * logger.Level * string)) :
  forall l, logger.level (logAll l calls) = logger.level l.
Proof.
  induction calls as [|c calls IH]; intros l; [reflexivity|].
  cbn [logAll fold_left]. fold (logAll (logger.log l c.1.1 c.1.2 c.2) calls).
  now rewrite IH, log_level.
Qed.

End LoggerResults.

(** X23.  The logger writes exactly the calls whose level is at most its
    own, in the order of the calls, each as one line made of the time
    stamp between brackets, the name of the level, a colon and the
    message; a call above the level writes nothing, nothing written
    before is changed, and the level of the logger never changes. *)
Theorem X23_log_threshold
    (l : logger.Logger) (calls : list (string * logger.Level * string)) :
  logger.level (logAll l calls) = logger.level l /\
  logger.output (logAll l calls)
  = logger.output l +:+
    fold_right
      (fun c written =>
         ("[" +:+ c.1.1 +:+ "] " +:+ logger.String c.1.2 +:+ ": " +:+ c.2
          +:+ String "010"%char EmptyString) +:+ written)
      EmptyString
      (List.filter (fun c => c.1.2 <=? logger.level l) calls).
Proof.
  split; [apply logAll_level|].
  revert l. induction calls as [|[[timestamp lvl] message] calls IH]; intros l.
  - cbn. now rewrite append_empty_r.
  - cbn [logAll fold_left List.filter fst snd].
    fold (logAll (logger.log l timestamp lvl message) calls).
    rewrite IH, log_level. unfold logger.log.
    destruct (Z.gtb_spec lvl (logger.level l)) as [Hgt|Hle];
      destruct (Z.leb_spec lvl (logger.level l)) as [Hle'|Hgt']; try lia.
    + reflexivity.
    + cbn [logger.output fold_right fst snd]. now rewrite append_assoc.
Qed.

(* ===================================================================== *)
(** * Further properties: the defaults *)
(* ===================================================================== *)

Section DefaultResults.
Context `{L : GoLibrary}.

Lemma ValidateConfig_DefaultConfig : config.ValidateConfig config.DefaultConfig = None.
Proof. vm_compute. reflexivity. Qed.

Lemma ParseConfig_absent (empty : bool) :
  config.ParseConfig (if empty then Some ∅ else None) = Ok config.DefaultConfig.
Proof.
  destruct empty; [|reflexivity].
  unfold config.ParseConfig, config.getString, config.getBool, config.getStringList.
  now rewrite !lookup_empty.
Qed.

End DefaultResults.

(** X24.  The defaults are a valid configuration: an Init whose request
    carries no configuration, or a configuration without fields, succeeds
    for every provider and environment, ends in Ready and stores the
    default configuration; a path of several segments, none of them
    blank, then resolves to the upper-cased segments joined by an
    underscore, with no prefix. *)
Theorem X24_init_without_configuration `{L : GoLibrary}
    (p : provider.Provider) (env : Go.Env) (alias : string) (empty : bool) :
  let req := {| provider.Alias := alias;
                provider.Config_ := if empty then Some ∅ else None |} in
  fst (provider.Init p env req) = provider.Response provider.MkInitResponse /\
  provider.state (snd (provider.Init p env req)) = provider.StateReady /\
  provider.alias (snd (provider.Init p env req)) = alias /\
  provider.config (snd (provider.Init p env req)) = Some config.DefaultConfig /\
  (forall path,
      path <> [] ->
      Forall (fun segment => Go.TrimSpace segment <> EmptyString) path ->
      (fun r => resolver.Transform r path)
        <$> provider.resolver (snd (provider.Init p env req))
      = Some (Ok (Go.Join (map ToUpper path) "_"))).
Proof.
  intros req.
  rewrite (Init_success p env req config.DefaultConfig (ParseConfig_absent empty)
             ValidateConfig_DefaultConfig eq_refl).
  repeat (split; [reflexivity|]).
  intros path Hne Hall. cbn [provider.resolver fmap option_fmap option_map]. f_equal.
  unfold resolver.Transform. destruct path as [|s path]; [contradiction|].
  cbn [length Nat.eqb]. now rewrite (hasEmptySegment_false _ Hall).
Qed.
